(** * elk-example: the generated CRUD handlers of [ent/http]

    A shallow embedding of the generated [Create] and [Read] handlers of the
    Group, Pet and User entities ([ent/http/create.go] and the file of the
    read handlers), together with the pieces of the Go runtime they lean on: [strconv.Atoi],
    [encoding/json] decoding into the request structs, the struct-tag rules of
    the request validator, the zap logger and the [render] helpers.

    A handler run is a value of the monad [M]: the list of observable events
    (log entries, calls of the ent client, responses written) and whether the
    goroutine returned or panicked. *)

From Stdlib Require Import ZArith List String Ascii Bool.
Import ListNotations.
Set Warnings "-register-all".
Open Scope string_scope.
Open Scope list_scope.
Open Scope Z_scope.

(** ** Go values *)

(** Go's [int] on a 64-bit platform. *)
Definition minInt : Z := - 2 ^ 63.
Definition maxInt : Z := 2 ^ 63 - 1.
Definition in_int (z : Z) : bool := (minInt <=? z) && (z <=? maxInt).

(** One failed rule of the request validator ([validator.FieldError]): the
    struct field, the tag that failed and the tag's parameter. *)
Record FieldError := mkFieldError {
  Field : string;
  Tag : string;
  Param : string
}.

(** The values of Go's [error] interface that the handlers can meet.  A nil
    error is [None] of [option error]. *)
Inductive error :=
| NumError (fn num : string)                 (* strconv *)
| SyntaxError (msg : string)                 (* encoding/json: malformed text, io.EOF *)
| UnmarshalTypeError (value : string)        (* encoding/json: JSON value of the wrong kind *)
| InvalidValidationError                     (* validator: the rule evaluator was misused *)
| ValidationErrors (errs : list FieldError)  (* validator: field violations *)
| NotFoundError (label : string)             (* ent *)
| NotSingularError (label : string)          (* ent *)
| ConstraintError (msg : string)             (* ent: constraint (foreign key, unique) failed *)
| OtherError (msg : string).                 (* driver and any other fault *)

(** [ent.IsNotFound], [ent.IsNotSingular]. *)
Definition IsNotFound (err : error) : bool :=
  match err with NotFoundError _ => true | _ => false end.
Definition IsNotSingular (err : error) : bool :=
  match err with NotSingularError _ => true | _ => false end.
Definition IsConstraintError (err : error) : bool :=
  match err with ConstraintError _ => true | _ => false end.

(** ** strconv.Atoi *)

Module strconv.

Definition is_digit (c : ascii) : bool :=
  (48 <=? nat_of_ascii c)%nat && (nat_of_ascii c <=? 57)%nat.

(** The decimal value of a string of digits, [None] at the first other byte. *)
Fixpoint digits (acc : Z) (s : string) : option Z :=
  match s with
  | EmptyString => Some acc
  | String c s' =>
      if is_digit c
      then digits (acc * 10 + Z.of_nat (nat_of_ascii c - 48)) s'
      else None
  end.

(** [Atoi]: an optional sign, then at least one decimal digit and nothing
    else; the value has to fit an [int]. *)
Definition Atoi (s : string) : Z + error :=
  let '(neg, body) :=
    match s with
    | String "-"%char t => (true, t)
    | String "+"%char t => (false, t)
    | _ => (false, s)
    end in
  match body with
  | EmptyString => inr (NumError "Atoi" s)
  | _ =>
      match digits 0 body with
      | None => inr (NumError "Atoi" s)
      | Some n =>
          let v := if neg then - n else n in
          if in_int v then inl v else inr (NumError "Atoi" s)
      end
  end.

End strconv.

(** ** zap *)

Inductive Level := InfoLevel | ErrorLevel.

(** [zap.String], [zap.Int], [zap.Error]. *)
Inductive zapField :=
| zap_String (key val : string)
| zap_Int (key : string) (val : Z)
| zap_Error (err : error).

(** A logger is the context it was built [With]. *)
Record Logger := mkLogger { context : list zapField }.

Definition With (l : Logger) (fs : list zapField) : Logger :=
  mkLogger (context l ++ fs).

(** ** encoding/json *)

Module json.

(** A number literal: an integer, or a literal with a fraction or an exponent
    (kept as text). *)
Inductive number :=
| Integer (z : Z)
| Fractional (lit : string).

Inductive value :=
| Null
| Bool (b : bool)
| Number (n : number)
| Str (s : string)
| Array (l : list value)
| Object (members : list (string * value)).

(** The name of the kind of a value, as an [UnmarshalTypeError] reports it. *)
Definition kind_name (v : value) : string :=
  match v with
  | Null => "null" | Bool _ => "bool" | Number _ => "number"
  | Str _ => "string" | Array _ => "array" | Object _ => "object"
  end.

Definition byte (c : ascii) : Z := Z.of_N (N_of_ascii c).
Definition caseMask : Z := 223.   (* ^byte(0x20) *)

(** [simpleLetterEqualFold]: the fold used for a field name made of letters
    other than k and s. *)
Fixpoint simpleLetterEqualFold (s t : string) : bool :=
  match s, t with
  | EmptyString, EmptyString => true
  | String b s', String c t' =>
      (Z.land (byte b) caseMask =? Z.land (byte c) caseMask)
      && simpleLetterEqualFold s' t'
  | _, _ => false
  end.

(** [equalFoldRight]: the fold used for a field name with a k or an s, which
    also match the Kelvin sign (E2 84 AA) and the long s (C5 BF). *)
Fixpoint equalFoldRight (s t : string) : bool :=
  match s with
  | EmptyString => match t with EmptyString => true | _ => false end
  | String sb s' =>
      match t with
      | EmptyString => false
      | String tb t' =>
          if byte tb <? 128 then
            (if byte sb =? byte tb then true
             else
               let sbUpper := Z.land (byte sb) caseMask in
               (65 <=? sbUpper) && (sbUpper <=? 90)
               && (sbUpper =? Z.land (byte tb) caseMask))
            && equalFoldRight s' t'
          else
            match t with
            | String c1 (String c2 t2) =>
                if (byte c1 =? 197) && (byte c2 =? 191) then
                  ((byte sb =? 115) || (byte sb =? 83)) && equalFoldRight s' t2
                else
                  match t2 with
                  | String c3 t3 =>
                      (byte c1 =? 226) && (byte c2 =? 132) && (byte c3 =? 170)
                      && ((byte sb =? 107) || (byte sb =? 75))
                      && equalFoldRight s' t3
                  | EmptyString => false
                  end
            | _ => false
            end
      end
  end.

(** Storing a JSON value into a [*string], a [*int] and a [[]int] field: the
    new content of the field, or the type error that leaves it as it was. *)
Definition store_string (v : value) : option string + error :=
  match v with
  | Null => inl None
  | Str s => inl (Some s)
  | _ => inr (UnmarshalTypeError (kind_name v))
  end.

Definition store_int (v : value) : option Z + error :=
  match v with
  | Null => inl None
  | Number (Integer z) =>
      if in_int z then inl (Some z) else inr (UnmarshalTypeError "number")
  | _ => inr (UnmarshalTypeError (kind_name v))
  end.

(** An element of an [[]int]: null leaves the zero value. *)
Definition store_elem (v : value) : Z + error :=
  match v with
  | Null => inl 0
  | Number (Integer z) =>
      if in_int z then inl z else inr (UnmarshalTypeError "number")
  | _ => inr (UnmarshalTypeError (kind_name v))
  end.

Fixpoint store_elems (l : list value) : list Z + error :=
  match l with
  | [] => inl []
  | v :: l' =>
      match store_elem v, store_elems l' with
      | inl z, inl zs => inl (z :: zs)
      | inr e, _ => inr e
      | inl _, inr e => inr e
      end
  end.

Definition store_ints (v : value) : option (list Z) + error :=
  match v with
  | Null => inl None
  | Array l =>
      match store_elems l with
      | inl zs => inl (Some zs)
      | inr e => inr e
      end
  | _ => inr (UnmarshalTypeError (kind_name v))
  end.

(** The decoder keeps the first error and goes on. *)
Definition saveError (saved : option error) (e : error) : option error :=
  match saved with
  | Some e0 => Some e0
  | None => Some e
  end.

End json.

(** The body of a request: bytes that are not a JSON text (the error is the
    decoder's), or the first JSON value of the stream. *)
Inductive body :=
| Malformed (err : error)
| WellFormed (v : json.value).

Record Request := mkRequest {
  URLParams : list (string * string);
  Body : body
}.

(** [chi.URLParam]: the value of the parameter, the empty string without one. *)
Fixpoint URLParam_in (ps : list (string * string)) (key : string) : string :=
  match ps with
  | [] => ""
  | (k, v) :: ps' => if String.eqb k key then v else URLParam_in ps' key
  end.
Definition URLParam (r : Request) (key : string) : string :=
  URLParam_in (URLParams r) key.

(** ** The payloads of the create requests *)

Record GroupCreateRequest := mkGroupCreateRequest { }.

Record PetCreateRequest := mkPetCreateRequest {
  Pet_Name : option string;   (* Name  *string `json:"name"` *)
  Pet_Age : option Z;         (* Age   *int    `json:"age" validate:"required,gt=0"` *)
  Pet_Owner : option Z        (* Owner *int    `json:"owner" validate:"required"` *)
}.

Record UserCreateRequest := mkUserCreateRequest {
  User_Name : option string;      (* Name *string `json:"name"` *)
  User_Age : option Z;            (* Age  *int    `json:"age"` *)
  User_Pets : option (list Z)     (* Pets []int   `json:"pets"` *)
}.

(** [json.NewDecoder(r.Body).Decode(&d)] for each payload: the struct after
    the call and the error returned.  A member of an object goes to the field
    whose name it matches up to case; other members are skipped; [null] for
    the whole value leaves the struct as it is; any other kind of value is a
    type error. *)
Module Decode.

Definition Group_member (st : GroupCreateRequest * option error)
    (m : string * json.value) : GroupCreateRequest * option error := st.

Definition Group (b : body) (d : GroupCreateRequest)
    : GroupCreateRequest * option error :=
  match b with
  | Malformed err => (d, Some err)
  | WellFormed json.Null => (d, None)
  | WellFormed (json.Object ms) => fold_left Group_member ms (d, None)
  | WellFormed v => (d, Some (UnmarshalTypeError (json.kind_name v)))
  end.

Definition Pet_member (st : PetCreateRequest * option error)
    (m : string * json.value) : PetCreateRequest * option error :=
  let '(d, saved) := st in
  let '(key, v) := m in
  if json.simpleLetterEqualFold "name" key then
    match json.store_string v with
    | inl x => (mkPetCreateRequest x (Pet_Age d) (Pet_Owner d), saved)
    | inr e => (d, json.saveError saved e)
    end
  else if json.simpleLetterEqualFold "age" key then
    match json.store_int v with
    | inl x => (mkPetCreateRequest (Pet_Name d) x (Pet_Owner d), saved)
    | inr e => (d, json.saveError saved e)
    end
  else if json.simpleLetterEqualFold "owner" key then
    match json.store_int v with
    | inl x => (mkPetCreateRequest (Pet_Name d) (Pet_Age d) x, saved)
    | inr e => (d, json.saveError saved e)
    end
  else (d, saved).

Definition Pet (b : body) (d : PetCreateRequest)
    : PetCreateRequest * option error :=
  match b with
  | Malformed err => (d, Some err)
  | WellFormed json.Null => (d, None)
  | WellFormed (json.Object ms) => fold_left Pet_member ms (d, None)
  | WellFormed v => (d, Some (UnmarshalTypeError (json.kind_name v)))
  end.

Definition User_member (st : UserCreateRequest * option error)
    (m : string * json.value) : UserCreateRequest * option error :=
  let '(d, saved) := st in
  let '(key, v) := m in
  if json.simpleLetterEqualFold "name" key then
    match json.store_string v with
    | inl x => (mkUserCreateRequest x (User_Age d) (User_Pets d), saved)
    | inr e => (d, json.saveError saved e)
    end
  else if json.simpleLetterEqualFold "age" key then
    match json.store_int v with
    | inl x => (mkUserCreateRequest (User_Name d) x (User_Pets d), saved)
    | inr e => (d, json.saveError saved e)
    end
  else if json.equalFoldRight "pets" key then
    match json.store_ints v with
    | inl x => (mkUserCreateRequest (User_Name d) (User_Age d) x, saved)
    | inr e => (d, json.saveError saved e)
    end
  else (d, saved).

Definition User (b : body) (d : UserCreateRequest)
    : UserCreateRequest * option error :=
  match b with
  | Malformed err => (d, Some err)
  | WellFormed json.Null => (d, None)
  | WellFormed (json.Object ms) => fold_left User_member ms (d, None)
  | WellFormed v => (d, Some (UnmarshalTypeError (json.kind_name v)))
  end.

End Decode.

(** ** The request validator *)

(** What [Validate.Struct] is handed: one of the three payloads. *)
Inductive payload :=
| OfGroup (d : GroupCreateRequest)
| OfPet (d : PetCreateRequest)
| OfUser (d : UserCreateRequest).

(** A [*validator.Validate]: its [Struct] method. *)
Record Validate := mkValidate { Struct : payload -> option error }.

Module validator.

(** The tag [required] on a pointer field: the pointer is not nil. *)
Definition required {A : Type} (field : string) (v : option A) : list FieldError :=
  match v with
  | None => [mkFieldError field "required" ""]
  | Some _ => []
  end.

(** The tags [required,gt=0] on a [*int] field; a field reports the first tag
    that fails. *)
Definition required_gt0 (field : string) (v : option Z) : list FieldError :=
  match v with
  | None => [mkFieldError field "required" ""]
  | Some n => if 0 <? n then [] else [mkFieldError field "gt" "0"]
  end.

(** The violations of a payload, field by field in the order of the struct,
    read off the [validate] tags of the three request structs. *)
Definition violations (p : payload) : list FieldError :=
  match p with
  | OfGroup _ => []
  | OfPet d => required_gt0 "Age" (Pet_Age d) ++ required "Owner" (Pet_Owner d)
  | OfUser _ => []
  end.

(** [validator.New()], the validator [main] hands to the handlers: nil without
    a violation, [ValidationErrors] otherwise.  Handed a struct it never
    returns an [InvalidValidationError]. *)
Definition New : Validate :=
  mkValidate (fun p =>
    match violations p with
    | [] => None
    | errs => Some (ValidationErrors errs)
    end).

End validator.

(** ** Entities and the ent client *)

Inductive Kind := Group | Pet | User.

(** [group.Label], [pet.Label], [user.Label]. *)
Definition Label (k : Kind) : string :=
  match k with Group => "group" | Pet => "pet" | User => "user" end.

(** Modelled from the spec: the entity structs [ent.Group], [ent.Pet] and
    [ent.User] are generated code that is not under src/.  A persisted entity
    is identified by an integer, carries fields (name, serialization groups,
    value) and named relations to other entities, each with its
    serialization groups and its loaded targets. *)
Inductive Entity :=
| mkEntity (id : Z) (fields : list (string * list string * json.value))
    (edges : list Edge)
with Edge :=
| mkEdge (name : string) (groups : list string) (targets : list Entity).

Definition ID (e : Entity) : Z := let '(mkEntity id _ _) := e in id.
Definition fields (e : Entity) := let '(mkEntity _ fs _) := e in fs.
Definition edges (e : Entity) : list Edge := let '(mkEntity _ _ es) := e in es.
Definition edge_name (d : Edge) : string := let '(mkEdge n _ _) := d in n.
Definition edge_groups (d : Edge) : list string := let '(mkEdge _ g _) := d in g.
Definition edge_targets (d : Edge) : list Entity := let '(mkEdge _ _ t) := d in t.

(** The setters of the create builders that the handlers call. *)
Inductive Setter :=
| SetName (v : string)
| SetAge (v : Z)
| SetOwnerID (v : Z)
| AddPetIDs (ids : list Z).

(** A create builder ([GroupCreate], [PetCreate], [UserCreate]): the entity
    kind and the setters called on it so far, in order. *)
Record Builder := mkBuilder {
  builder_kind : Kind;
  mutation : list Setter
}.

Definition Create (k : Kind) : Builder := mkBuilder k [].
Definition set (c : Setter) (b : Builder) : Builder :=
  mkBuilder (builder_kind b) (mutation b ++ [c]).

(** A query: [Query().Where(ID(id))] and the edges to load with it. *)
Record Query := mkQuery {
  query_kind : Kind;
  where_ID : Z;
  eager : list string
}.

(** The ent client, as far as the handlers use it.  Both calls return Go's
    pair of a pointer to the entity and an error. *)
Record Client := mkClient {
  Save : Builder -> option Entity * option error;
  Only : Query -> option Entity * option error
}.

(** ** Handler runs *)

(** What [render] is asked to write as the body: nil, a string, an error or
    serialized data. *)
Inductive rendered :=
| r_nil
| r_string (s : string)
| r_error (err : error)
| r_data (j : json.value).

Inductive Event :=
| Log (lvl : Level) (msg : string) (fs : list zapField)
| Call_Save (b : Builder)
| Call_Only (q : Query)
| Respond (code : Z) (v : rendered).

(** A run: the events so far and the value computed, [None] once the
    goroutine has panicked. *)
Definition M (A : Type) : Type := list Event * option A.

Definition ret {A : Type} (a : A) : M A := ([], Some a).

Definition bind {A B : Type} (m : M A) (f : A -> M B) : M B :=
  match m with
  | (t, Some a) => let '(t', b) := f a in (t ++ t', b)
  | (t, None) => (t, None)
  end.

Notation "x <- m ;; k" := (bind m (fun x => k))
  (at level 61, m at next level, right associativity).
Notation "' p <- m ;; k" := (bind m (fun x => let 'p := x in k))
  (at level 61, p pattern, m at next level, right associativity).
Notation "m ;; k" := (bind m (fun _ => k))
  (at level 61, right associativity).

Definition tell (ev : Event) : M unit := ([ev], Some tt).

(** The runtime panic of a nil pointer dereference. *)
Definition panic {A : Type} : M A := ([], None).

(** [e.ID] for a pointer [e]. *)
Definition ID_of (e : option Entity) : M Z :=
  match e with
  | Some e => ret (ID e)
  | None => panic
  end.

Definition Logger_Info (l : Logger) (msg : string) (fs : list zapField) : M unit :=
  tell (Log InfoLevel msg (context l ++ fs)).
Definition Logger_Error (l : Logger) (msg : string) (fs : list zapField) : M unit :=
  tell (Log ErrorLevel msg (context l ++ fs)).

Definition call_Save (c : Client) (b : Builder) : M (option Entity * option error) :=
  tell (Call_Save b) ;; ret (Save c b).
Definition call_Only (c : Client) (q : Query) : M (option Entity * option error) :=
  tell (Call_Only q) ;; ret (Only c q).

Module render.
Definition OK (v : rendered) : M unit := tell (Respond 200 v).
Definition BadRequest (v : rendered) : M unit := tell (Respond 400 v).
Definition NotFound (v : rendered) : M unit := tell (Respond 404 v).
Definition InternalServerError (v : rendered) : M unit := tell (Respond 500 v).
End render.

(** [sheriff.Options]. *)
Record Options := mkOptions {
  IncludeEmptyTag : bool;
  Groups : list string
}.

(** [GroupHandler], [PetHandler] and [UserHandler] have the same fields:
    [client], [log] and [validator]. *)
Record Handler := mkHandler {
  client : Client;
  log : Logger;
  validator_of : Validate
}.

(** ** The handlers *)

Section Handlers.

(** [sheriff.Marshal]: the serialized value and an error. *)
Variable Marshal : Options -> option Entity -> json.value * option error.

(** The helpers that strip the prefix of an ent error message: the function
    the read handlers call and the method the create handlers call. *)
Variable stripEntError : error -> string.
Variable handler_stripEntError : error -> string.

(** [GroupHandler.Create]. *)
Definition GroupHandler_Create (h : Handler) (r : Request) : M unit :=
  let l := With (log h) [zap_String "method" "Create"] in
  (* Get the post data. *)
  let '(d, err) := Decode.Group (Body r) mkGroupCreateRequest in
  match err with
  | Some err =>
      Logger_Error l "error decoding json" [zap_Error err] ;;
      render.BadRequest (r_string "invalid json string")
  | None =>
  (* Validate the data. *)
  match Struct (validator_of h) (OfGroup d) with
  | Some err =>
      match err with
      | InvalidValidationError =>
          Logger_Error l "error validating request data" [zap_Error err] ;;
          render.InternalServerError r_nil
      | _ =>
          Logger_Info l "validation failed" [zap_Error err] ;;
          render.BadRequest (r_error err)
      end
  | None =>
  (* Save the data. *)
  let b := Create Group in
  (* Store in database. *)
  '(e, err) <- call_Save (client h) b ;;
  match err with
  | Some err =>
      Logger_Error l "error saving group" [zap_Error err] ;;
      render.InternalServerError r_nil
  | None =>
  (* Reload entry. *)
  id <- ID_of e ;;
  let q := mkQuery Group id [] in
  '(e, err) <- call_Only (client h) q ;;
  match err with
  | Some err =>
      match err with
      | NotFoundError _ =>
          let msg := handler_stripEntError err in
          id <- ID_of e ;;
          Logger_Info l msg [zap_Int "id" id; zap_Error err] ;;
          render.NotFound (r_string msg)
      | _ =>
          id <- ID_of e ;;
          Logger_Error l "error fetching group from db" [zap_Int "id" id; zap_Error err] ;;
          render.InternalServerError r_nil
      end
  | None =>
  let '(j, err) := Marshal (mkOptions true ["group"]) e in
  match err with
  | Some err =>
      id <- ID_of e ;;
      Logger_Error l "serialization error" [zap_Int "id" id; zap_Error err] ;;
      render.InternalServerError r_nil
  | None =>
      id <- ID_of e ;;
      Logger_Info l "group rendered" [zap_Int "id" id] ;;
      render.OK (r_data j)
  end end end end end.

(** [PetHandler.Create]. *)
Definition PetHandler_Create (h : Handler) (r : Request) : M unit :=
  let l := With (log h) [zap_String "method" "Create"] in
  (* Get the post data. *)
  let '(d, err) := Decode.Pet (Body r) (mkPetCreateRequest None None None) in
  match err with
  | Some err =>
      Logger_Error l "error decoding json" [zap_Error err] ;;
      render.BadRequest (r_string "invalid json string")
  | None =>
  (* Validate the data. *)
  match Struct (validator_of h) (OfPet d) with
  | Some err =>
      match err with
      | InvalidValidationError =>
          Logger_Error l "error validating request data" [zap_Error err] ;;
          render.InternalServerError r_nil
      | _ =>
          Logger_Info l "validation failed" [zap_Error err] ;;
          render.BadRequest (r_error err)
      end
  | None =>
  (* Save the data. *)
  let b := Create Pet in
  let b := match Pet_Name d with Some v => set (SetName v) b | None => b end in
  let b := match Pet_Age d with Some v => set (SetAge v) b | None => b end in
  let b := match Pet_Owner d with Some v => set (SetOwnerID v) b | None => b end in
  (* Store in database. *)
  '(e, err) <- call_Save (client h) b ;;
  match err with
  | Some err =>
      Logger_Error l "error saving pet" [zap_Error err] ;;
      render.InternalServerError r_nil
  | None =>
  (* Reload entry. *)
  id <- ID_of e ;;
  let q := mkQuery Pet id [] in
  '(e, err) <- call_Only (client h) q ;;
  match err with
  | Some err =>
      match err with
      | NotFoundError _ =>
          let msg := handler_stripEntError err in
          id <- ID_of e ;;
          Logger_Info l msg [zap_Int "id" id; zap_Error err] ;;
          render.NotFound (r_string msg)
      | _ =>
          id <- ID_of e ;;
          Logger_Error l "error fetching pet from db" [zap_Int "id" id; zap_Error err] ;;
          render.InternalServerError r_nil
      end
  | None =>
  let '(j, err) := Marshal (mkOptions true ["pet"]) e in
  match err with
  | Some err =>
      id <- ID_of e ;;
      Logger_Error l "serialization error" [zap_Int "id" id; zap_Error err] ;;
      render.InternalServerError r_nil
  | None =>
      id <- ID_of e ;;
      Logger_Info l "pet rendered" [zap_Int "id" id] ;;
      render.OK (r_data j)
  end end end end end.

(** [UserHandler.Create]. *)
Definition UserHandler_Create (h : Handler) (r : Request) : M unit :=
  let l := With (log h) [zap_String "method" "Create"] in
  (* Get the post data. *)
  let '(d, err) := Decode.User (Body r) (mkUserCreateRequest None None None) in
  match err with
  | Some err =>
      Logger_Error l "error decoding json" [zap_Error err] ;;
      render.BadRequest (r_string "invalid json string")
  | None =>
  (* Validate the data. *)
  match Struct (validator_of h) (OfUser d) with
  | Some err =>
      match err with
      | InvalidValidationError =>
          Logger_Error l "error validating request data" [zap_Error err] ;;
          render.InternalServerError r_nil
      | _ =>
          Logger_Info l "validation failed" [zap_Error err] ;;
          render.BadRequest (r_error err)
      end
  | None =>
  (* Save the data. *)
  let b := Create User in
  let b := match User_Name d with Some v => set (SetName v) b | None => b end in
  let b := match User_Age d with Some v => set (SetAge v) b | None => b end in
  let b := match User_Pets d with Some ids => set (AddPetIDs ids) b | None => b end in
  (* Store in database. *)
  '(e, err) <- call_Save (client h) b ;;
  match err with
  | Some err =>
      Logger_Error l "error saving user" [zap_Error err] ;;
      render.InternalServerError r_nil
  | None =>
  (* Reload entry. *)
  id <- ID_of e ;;
  let q := mkQuery User id [] in
  '(e, err) <- call_Only (client h) q ;;
  match err with
  | Some err =>
      match err with
      | NotFoundError _ =>
          let msg := handler_stripEntError err in
          id <- ID_of e ;;
          Logger_Info l msg [zap_Int "id" id; zap_Error err] ;;
          render.NotFound (r_string msg)
      | _ =>
          id <- ID_of e ;;
          Logger_Error l "error fetching user from db" [zap_Int "id" id; zap_Error err] ;;
          render.InternalServerError r_nil
      end
  | None =>
  let '(j, err) := Marshal (mkOptions true ["user"]) e in
  match err with
  | Some err =>
      id <- ID_of e ;;
      Logger_Error l "serialization error" [zap_Int "id" id; zap_Error err] ;;
      render.InternalServerError r_nil
  | None =>
      id <- ID_of e ;;
      Logger_Info l "user rendered" [zap_Int "id" id] ;;
      render.OK (r_data j)
  end end end end end.

(** [GroupHandler.Read]. *)
Definition GroupHandler_Read (h : Handler) (r : Request) : M unit :=
  let l := With (log h) [zap_String "method" "Read"] in
  (* ID is URL parameter. *)
  match strconv.Atoi (URLParam r "id") with
  | inr err =>
      Logger_Error l "error getting id from url parameter"
        [zap_String "id" (URLParam r "id"); zap_Error err] ;;
      render.BadRequest (r_string "id must be an integer greater zero")
  | inl id =>
  (* Create the query to fetch the Group *)
  let q := mkQuery Group id [] in
  '(e, err) <- call_Only (client h) q ;;
  match err with
  | Some err =>
      if IsNotFound err then
        let msg := stripEntError err in
        Logger_Info l msg [zap_Int "id" id; zap_Error err] ;;
        render.NotFound (r_string msg)
      else if IsNotSingular err then
        let msg := stripEntError err in
        Logger_Error l msg [zap_Int "id" id; zap_Error err] ;;
        render.BadRequest (r_string msg)
      else
        Logger_Error l "error fetching group from db" [zap_Int "id" id; zap_Error err] ;;
        render.InternalServerError r_nil
  | None =>
  let '(d, err) := Marshal (mkOptions true ["group"]) e in
  match err with
  | Some err =>
      Logger_Error l "serialization error" [zap_Int "id" id; zap_Error err] ;;
      render.InternalServerError r_nil
  | None =>
      Logger_Info l "group rendered" [zap_Int "id" id] ;;
      render.OK (r_data d)
  end end end.

(** [PetHandler.Read]. *)
Definition PetHandler_Read (h : Handler) (r : Request) : M unit :=
  let l := With (log h) [zap_String "method" "Read"] in
  (* ID is URL parameter. *)
  match strconv.Atoi (URLParam r "id") with
  | inr err =>
      Logger_Error l "error getting id from url parameter"
        [zap_String "id" (URLParam r "id"); zap_Error err] ;;
      render.BadRequest (r_string "id must be an integer greater zero")
  | inl id =>
  (* Create the query to fetch the Pet *)
  let q := mkQuery Pet id [] in
  '(e, err) <- call_Only (client h) q ;;
  match err with
  | Some err =>
      if IsNotFound err then
        let msg := stripEntError err in
        Logger_Info l msg [zap_Int "id" id; zap_Error err] ;;
        render.NotFound (r_string msg)
      else if IsNotSingular err then
        let msg := stripEntError err in
        Logger_Error l msg [zap_Int "id" id; zap_Error err] ;;
        render.BadRequest (r_string msg)
      else
        Logger_Error l "error fetching pet from db" [zap_Int "id" id; zap_Error err] ;;
        render.InternalServerError r_nil
  | None =>
  let '(d, err) := Marshal (mkOptions true ["pet"]) e in
  match err with
  | Some err =>
      Logger_Error l "serialization error" [zap_Int "id" id; zap_Error err] ;;
      render.InternalServerError r_nil
  | None =>
      Logger_Info l "pet rendered" [zap_Int "id" id] ;;
      render.OK (r_data d)
  end end end.

(** [UserHandler.Read]. *)
Definition UserHandler_Read (h : Handler) (r : Request) : M unit :=
  let l := With (log h) [zap_String "method" "Read"] in
  (* ID is URL parameter. *)
  match strconv.Atoi (URLParam r "id") with
  | inr err =>
      Logger_Error l "error getting id from url parameter"
        [zap_String "id" (URLParam r "id"); zap_Error err] ;;
      render.BadRequest (r_string "id must be an integer greater zero")
  | inl id =>
  (* Create the query to fetch the User, with the edges required on read *)
  let q := mkQuery User id ["pets"] in
  '(e, err) <- call_Only (client h) q ;;
  match err with
  | Some err =>
      if IsNotFound err then
        let msg := stripEntError err in
        Logger_Info l msg [zap_Int "id" id; zap_Error err] ;;
        render.NotFound (r_string msg)
      else if IsNotSingular err then
        let msg := stripEntError err in
        Logger_Error l msg [zap_Int "id" id; zap_Error err] ;;
        render.BadRequest (r_string msg)
      else
        Logger_Error l "error fetching user from db" [zap_Int "id" id; zap_Error err] ;;
        render.InternalServerError r_nil
  | None =>
  let '(d, err) := Marshal (mkOptions true ["user"]) e in
  match err with
  | Some err =>
      Logger_Error l "serialization error" [zap_Int "id" id; zap_Error err] ;;
      render.InternalServerError r_nil
  | None =>
      Logger_Info l "user rendered" [zap_Int "id" id] ;;
      render.OK (r_data d)
  end end end.

End Handlers.

(** ** The serializer *)

Module Serializer.

(** The tags of a field or relation meet the active group set. *)
Definition intersects (tags active : list string) : bool :=
  existsb (fun t => existsb (String.eqb t) active) tags.

(** A field is emitted when it carries no tag or its tags meet the active
    set. *)
Definition field_emitted (active : list string)
    (f : string * list string * json.value) : bool :=
  match snd (fst f) with
  | [] => true
  | tags => intersects tags active
  end.

(** What stands for a relation that is not expanded. *)
Definition placeholder : json.value := json.Object [].

(** Modelled from the spec: the serializer ([sheriff.Marshal] over the tags of
    the entity structs) is not under src/.  Given an entity and an active
    group set it produces an ordered key-value structure: the identifier,
    every field without a group tag, a tagged field iff its tags meet the
    active set, and every relation, expanded (recursively) iff its tags meet
    the active set and as an explicitly-empty placeholder otherwise. *)
Fixpoint serialize (active : list string) (e : Entity) : json.value :=
  match e with
  | mkEntity id fs es =>
      json.Object
        (("id", json.Number (json.Integer id))
         :: map (fun f => (fst (fst f), snd f)) (filter (field_emitted active) fs)
         ++ map (fun d =>
                   match d with
                   | mkEdge name tags targets =>
                       (name,
                        if intersects tags active
                        then json.Array (map (serialize active) targets)
                        else placeholder)
                   end) es)
  end.

Definition members (v : json.value) : list (string * json.value) :=
  match v with
  | json.Object ms => ms
  | _ => []
  end.

(** [sheriff.Marshal] as the spec has it: it serializes the entity behind the
    pointer with the groups of the options and reports no error. *)
Definition Marshal (o : Options) (e : option Entity) : json.value * option error :=
  match e with
  | Some e => (serialize (Groups o) e, None)
  | None => (json.Null, None)
  end.

End Serializer.

(** ** What a run shows *)

Definition trace {A : Type} (m : M A) : list Event := fst m.

Definition panicked {A : Type} (m : M A) : bool :=
  match snd m with Some _ => false | None => true end.

(** The responses written, the calls of the ent client and the log entries of
    a trace, each in order. *)
Fixpoint responses (t : list Event) : list (Z * rendered) :=
  match t with
  | [] => []
  | Respond code v :: t' => (code, v) :: responses t'
  | _ :: t' => responses t'
  end.

Definition is_call (ev : Event) : bool :=
  match ev with Call_Save _ | Call_Only _ => true | _ => false end.

Definition client_calls (t : list Event) : list Event := filter is_call t.

Fixpoint log_entries (t : list Event) : list (Level * string * list zapField) :=
  match t with
  | [] => []
  | Log lvl msg fs :: t' => (lvl, msg, fs) :: log_entries t'
  | _ :: t' => log_entries t'
  end.

Definition is_save (ev : Event) : bool :=
  match ev with Call_Save _ => true | _ => false end.

(** The Save calls of a trace. *)
Definition saves (t : list Event) : list Event := filter is_save t.

(** ** Reading handler runs *)

(** The setter call a present field stands for; none for an absent one. *)
Definition present {A : Type} (f : A -> Setter) (v : option A) : list Setter :=
  match v with
  | Some x => [f x]
  | None => []
  end.

(** [render] writes the violations of a request as a map from the field to a
    message (the post shows the keys Age and Owner); its keys are the fields
    of the violations. *)
Definition error_fields (v : rendered) : list string :=
  match v with
  | r_error (ValidationErrors errs) => map Field errs
  | _ => []
  end.

(** Destructs what the run of a handler branches on. *)
Ltac branch :=
  match goal with
  | |- context [match ?x with _ => _ end] =>
      lazymatch x with
      | context [match _ with _ => _ end] => fail
      | _ => destruct x eqn:?
      end
  end.

(** Unfolds the operations of the monad. *)
Ltac unfold_run :=
  unfold call_Save, call_Only, ID_of, Logger_Info, Logger_Error,
    render.OK, render.BadRequest, render.NotFound, render.InternalServerError,
    panic, bind, tell, ret, trace, panicked.





(** The log context of a create run. *)
Definition create_context (h : Handler) : list zapField :=
  context (log h) ++ [zap_String "method" "Create"].


(** What the Pet create handler does with a failed reload, given the pointer
    [e'] that came with the error: with a nil pointer the evaluation of
    [e.ID] for the log entry panics, before anything is logged or written. *)
Definition Pet_after_failed_reload (handler_stripEntError : error -> string)
    (h : Handler) (e' : option Entity) (err : error) : list Event * option unit :=
  match e' with
  | None => ([], None)
  | Some e1 =>
      match err with
      | NotFoundError _ =>
          ([Log InfoLevel (handler_stripEntError err)
              (create_context h ++ [zap_Int "id" (ID e1); zap_Error err]);
            Respond 404 (r_string (handler_stripEntError err))], Some tt)
      | _ =>
          ([Log ErrorLevel "error fetching pet from db"
              (create_context h ++ [zap_Int "id" (ID e1); zap_Error err]);
            Respond 500 r_nil], Some tt)
      end
  end.



(** ** Sample handlers and requests *)

Module Examples.

(** The message of an ent error without its prefix. *)
Definition strip (err : error) : string :=
  match err with
  | NotFoundError label => String.append label " not found"
  | NotSingularError label => String.append label " not singular"
  | _ => ""
  end.

Definition kuro : Entity :=
  mkEntity 1
    [("name", [], json.Str "Kuro"); ("age", [], json.Number (json.Integer 3))]
    [mkEdge "owner" [] []].

Definition logger : Logger := mkLogger [zap_String "handler" "PetHandler"].
Definition group_logger : Logger := mkLogger [zap_String "handler" "GroupHandler"].
Definition user_logger : Logger := mkLogger [zap_String "handler" "UserHandler"].

(** A client that stores the pet and finds it again. *)
Definition store : Client :=
  mkClient (fun _ => (Some kuro, None)) (fun _ => (Some kuro, None)).

(** A client whose query fails with the given error, as ent's [Only] does:
    with a nil entity. *)
Definition store_query_fails (err : error) : Client :=
  mkClient (fun _ => (Some kuro, None)) (fun _ => (None, Some err)).

(** A client whose Save fails with the given error. *)
Definition store_save_fails (err : error) : Client :=
  mkClient (fun _ => (None, Some err)) (fun _ => (Some kuro, None)).

Definition handler (c : Client) : Handler := mkHandler c logger validator.New.
Definition group_handler (c : Client) : Handler := mkHandler c group_logger validator.New.
Definition user_handler (c : Client) : Handler := mkHandler c user_logger validator.New.

(** A validator that was set up wrongly and reports it. *)
Definition faulty : Validate := mkValidate (fun _ => Some InvalidValidationError).

Definition post (v : json.value) : Request := mkRequest [] (WellFormed v).
Definition get (id : string) : Request :=
  mkRequest [("id", id)] (Malformed (SyntaxError "EOF")).

(** The bodies of the two requests of the post. *)
Definition kuro_body : json.value :=
  json.Object [("name", json.Str "Kuro"); ("age", json.Number (json.Integer 3));
               ("owner", json.Number (json.Integer 1))].
Definition bob_body : json.value :=
  json.Object [("name", json.Str "Bob"); ("age", json.Number (json.Integer (-2)))].

End Examples.

(** ** The handlers by entity kind *)

(** The read and the create handler of a kind. *)
Definition Read_of (Marshal : Options -> option Entity -> json.value * option error)
    (stripEntError : error -> string) (k : Kind) : Handler -> Request -> M unit :=
  match k with
  | Group => GroupHandler_Read Marshal stripEntError
  | Pet => PetHandler_Read Marshal stripEntError
  | User => UserHandler_Read Marshal stripEntError
  end.

Definition Create_of (Marshal : Options -> option Entity -> json.value * option error)
    (handler_stripEntError : error -> string) (k : Kind) : Handler -> Request -> M unit :=
  match k with
  | Group => GroupHandler_Create Marshal handler_stripEntError
  | Pet => PetHandler_Create Marshal handler_stripEntError
  | User => UserHandler_Create Marshal handler_stripEntError
  end.

(** The edges the read handler of a kind loads with the entity: only the
    user's pets. *)
Definition eager_of (k : Kind) : list string :=
  match k with
  | User => ["pets"]
  | _ => []
  end.

(** The log context of a read run. *)
Definition read_context (h : Handler) : list zapField :=
  context (log h) ++ [zap_String "method" "Read"].

(** The options every handler of a kind serializes with. *)
Definition options_of (k : Kind) : Options := mkOptions true [Label k].

(** The messages of a kind's handlers. *)
Definition fetch_message (k : Kind) : string :=
  String.append "error fetching " (String.append (Label k) " from db").
Definition rendered_message (k : Kind) : string :=
  String.append (Label k) " rendered".
Definition save_message (k : Kind) : string :=
  String.append "error saving " (Label k).

(** The payload of a kind as its create handler decodes it from a body. *)
Definition Decode_of (k : Kind) (b : body) : payload * option error :=
  match k with
  | Group => let '(d, err) := Decode.Group b mkGroupCreateRequest in (OfGroup d, err)
  | Pet => let '(d, err) := Decode.Pet b (mkPetCreateRequest None None None) in (OfPet d, err)
  | User => let '(d, err) := Decode.User b (mkUserCreateRequest None None None) in (OfUser d, err)
  end.

(** The builder a payload stands for: the setters of its present fields. *)
Definition builder_of (p : payload) : Builder :=
  match p with
  | OfGroup _ => mkBuilder Group []
  | OfPet d =>
      mkBuilder Pet (present SetName (Pet_Name d) ++ present SetAge (Pet_Age d)
                     ++ present SetOwnerID (Pet_Owner d))
  | OfUser d =>
      mkBuilder User (present SetName (User_Name d) ++ present SetAge (User_Age d)
                      ++ present AddPetIDs (User_Pets d))
  end.

(** A response as the handlers write them: 200 with data, 400 with a message
    or the validator's error, 404 with a message, 500 with nil. *)
Definition response_ok (p : Z * rendered) : bool :=
  let '(code, v) := p in
  match v with
  | r_data _ => code =? 200
  | r_string _ => (code =? 400) || (code =? 404)
  | r_error _ => code =? 400
  | r_nil => code =? 500
  end.

(** The member name goes to a field of [PetCreateRequest]. *)
Definition Pet_key (key : string) : bool :=
  json.simpleLetterEqualFold "name" key
  || json.simpleLetterEqualFold "age" key
  || json.simpleLetterEqualFold "owner" key.

(** The member goes to a field of [PetCreateRequest] and its value is of a
    kind the field does not take. *)
Definition Pet_ill_typed (m : string * json.value) : bool :=
  let '(key, v) := m in
  if json.simpleLetterEqualFold "name" key then
    match json.store_string v with inr _ => true | inl _ => false end
  else if json.simpleLetterEqualFold "age" key then
    match json.store_int v with inr _ => true | inl _ => false end
  else if json.simpleLetterEqualFold "owner" key then
    match json.store_int v with inr _ => true | inl _ => false end
  else false.

(** The fields of a log entry start with the given ones. *)
Fixpoint starts_with (prefix fs : list zapField) : Prop :=
  match prefix, fs with
  | [], _ => True
  | p :: prefix', f :: fs' => p = f /\ starts_with prefix' fs'
  | _ :: _, [] => False
  end.

(** [NewPetHandler], as the post shows it: the logger gets the name of the
    handler. *)
Definition NewPetHandler (c : Client) (l : Logger) (v : Validate) : Handler :=
  mkHandler c (With l [zap_String "handler" "PetHandler"]) v.
(** * Properties *)

(** ** The runs of the post *)

(** The pet of the post is created: the run saves it, reloads it by the
    identifier of the write, logs the entry the post shows (info, "pet
    rendered", handler, method, id) and answers 200. *)
Example Create_kuro :
  PetHandler_Create Serializer.Marshal Examples.strip
    (Examples.handler Examples.store) (Examples.post Examples.kuro_body)
  = ([Call_Save (mkBuilder Pet [SetName "Kuro"; SetAge 3; SetOwnerID 1]);
      Call_Only (mkQuery Pet 1 []);
      Log InfoLevel "pet rendered"
        [zap_String "handler" "PetHandler"; zap_String "method" "Create"; zap_Int "id" 1];
      Respond 200 (r_data (Serializer.serialize ["pet"] Examples.kuro))], Some tt).
Proof. reflexivity. Qed.

(** A pet that does not exist is read: 404, logged at info level. *)
Example Read_missing_pet :
  PetHandler_Read Serializer.Marshal Examples.strip
    (Examples.handler (Examples.store_query_fails (NotFoundError "pet"))) (Examples.get "7")
  = ([Call_Only (mkQuery Pet 7 []);
      Log InfoLevel "pet not found"
        [zap_String "handler" "PetHandler"; zap_String "method" "Read";
         zap_Int "id" 7; zap_Error (NotFoundError "pet")];
      Respond 404 (r_string "pet not found")], Some tt).
Proof. reflexivity. Qed.

(** ** Identifiers that are no positive integer *)

Section Read_identifier.

Variable Marshal : Options -> option Entity -> json.value * option error.
Variable stripEntError : error -> string.

(** A parameter that [Atoi] rejects is answered with 400 and the client is
    never called. *)
Lemma Read_unparsable_id (h : Handler) (r : Request) (err : error) :
  strconv.Atoi (URLParam r "id") = inr err ->
  responses (trace (PetHandler_Read Marshal stripEntError h r))
    = [(400, r_string "id must be an integer greater zero")]
  /\ client_calls (trace (PetHandler_Read Marshal stripEntError h r)) = [].
Proof.
  intros E. unfold PetHandler_Read. rewrite E. split; reflexivity.
Qed.

(** Whatever integer [Atoi] accepts, positive or not, the first thing the
    read handler does is call the client with it. *)
Lemma Read_parsed_id_queries (h : Handler) (r : Request) (id : Z) :
  strconv.Atoi (URLParam r "id") = inl id ->
  hd_error (trace (PetHandler_Read Marshal stripEntError h r))
    = Some (Call_Only (mkQuery Pet id [])).
Proof.
  intros E. unfold PetHandler_Read. rewrite E.
  unfold call_Only, bind, tell, ret; simpl.
  destruct (Only (client h) (mkQuery Pet id [])) as [e [err|]]; simpl.
  - destruct (IsNotFound err); [reflexivity|].
    destruct (IsNotSingular err); reflexivity.
  - destruct (Marshal _ e) as [d [err|]]; reflexivity.
Qed.

(** C1 (the code at the failing inputs).  The claim: an identifier that is not
    a positive integer (non-numeric, zero or negative) gets a 400 before the
    client is queried.  The code only rejects what [Atoi] rejects: for the
    parameters 0 and -5 the read handler starts by querying the client for
    that identifier, and where the client reports no row the answer is 404,
    not 400. *)
Theorem Read_nonpositive_id_reaches_client (h : Handler) (b : body) :
  hd_error (trace (PetHandler_Read Marshal stripEntError h (mkRequest [("id", "0")] b)))
    = Some (Call_Only (mkQuery Pet 0 []))
  /\ hd_error (trace (PetHandler_Read Marshal stripEntError h (mkRequest [("id", "-5")] b)))
    = Some (Call_Only (mkQuery Pet (-5) []))
  /\ (forall label, Only (client h) (mkQuery Pet 0 []) = (None, Some (NotFoundError label)) ->
      responses (trace (PetHandler_Read Marshal stripEntError h (mkRequest [("id", "0")] b)))
        = [(404, r_string (stripEntError (NotFoundError label)))]).
Proof.
  split; [|split].
  - apply Read_parsed_id_queries. reflexivity.
  - apply Read_parsed_id_queries. reflexivity.
  - intros label E. unfold PetHandler_Read, URLParam. simpl URLParam_in.
    change (strconv.Atoi "0") with (@inl Z error 0).
    unfold call_Only, bind, tell, ret. rewrite E. reflexivity.
Qed.

End Read_identifier.

(** ** Create: validation before storage *)

Section Create_validation.

Variable Marshal : Options -> option Entity -> json.value * option error.
Variable handler_stripEntError : error -> string.

Lemma violations_missing (d : PetCreateRequest) :
  (Pet_Age d = None -> In "Age" (map Field (validator.violations (OfPet d))))
  /\ (Pet_Owner d = None -> In "Owner" (map Field (validator.violations (OfPet d)))).
Proof.
  unfold validator.violations, validator.required_gt0, validator.required.
  split; intros E; rewrite E.
  - simpl. left. reflexivity.
  - rewrite map_app, in_app_iff. right. simpl. left. reflexivity.
Qed.

(** C3.  A Pet payload that decodes and misses a required field (age or
    owner absent or null) is answered by [PetHandler.Create], run with the
    validator of [main], with 400 and the violations of the payload; every
    missing required field is a key of the error map; the run makes no call
    of the client (no Save, no query). *)
Theorem Create_missing_required_field
    (h : Handler) (r : Request) (d : PetCreateRequest) :
  validator_of h = validator.New ->
  Decode.Pet (Body r) (mkPetCreateRequest None None None) = (d, None) ->
  Pet_Age d = None \/ Pet_Owner d = None ->
  let run := PetHandler_Create Marshal handler_stripEntError h r in
  exists errs,
    errs = validator.violations (OfPet d)
    /\ responses (trace run) = [(400, r_error (ValidationErrors errs))]
    /\ (Pet_Age d = None -> In "Age" (error_fields (r_error (ValidationErrors errs))))
    /\ (Pet_Owner d = None -> In "Owner" (error_fields (r_error (ValidationErrors errs))))
    /\ client_calls (trace run) = []
    /\ panicked run = false.
Proof.
  intros Hv Hd Hmiss run.
  exists (validator.violations (OfPet d)).
  destruct (violations_missing d) as [Hage Howner].
  assert (Hne : validator.violations (OfPet d) <> []).
  { destruct Hmiss as [E|E]; [apply Hage in E | apply Howner in E];
      destruct (validator.violations (OfPet d)); [destruct E | discriminate | destruct E | discriminate]. }
  split; [reflexivity|].
  subst run. unfold PetHandler_Create. rewrite Hd, Hv.
  unfold validator.New, Struct.
  destruct (validator.violations (OfPet d)) as [|fe errs] eqn:E; [congruence|].
  unfold_run. simpl.
  repeat split; auto.
Qed.

End Create_validation.

(** A payload with a negative age and no owner: the request of the post. *)
Lemma Create_missing_required_field_witness :
  responses (trace (PetHandler_Create Serializer.Marshal Examples.strip
                      (Examples.handler Examples.store) (Examples.post Examples.bob_body)))
    = [(400, r_error (ValidationErrors
                        [mkFieldError "Age" "gt" "0"; mkFieldError "Owner" "required" ""]))]
  /\ client_calls (trace (PetHandler_Create Serializer.Marshal Examples.strip
                      (Examples.handler Examples.store) (Examples.post Examples.bob_body))) = [].
Proof.
  destruct (Create_missing_required_field Serializer.Marshal Examples.strip
              (Examples.handler Examples.store) (Examples.post Examples.bob_body)
              (mkPetCreateRequest (Some "Bob") (Some (-2)) None)
              eq_refl eq_refl (or_intror eq_refl))
    as (errs & E & R & _ & _ & C & _).
  split; [rewrite R, E; reflexivity | exact C].
Defined.

(** ** Create: the builder *)

Section Create_builder.

Variable Marshal : Options -> option Entity -> json.value * option error.
Variable handler_stripEntError : error -> string.




End Create_builder.


(** ** Create: faults of the validator and of the storage *)

Section Create_faults.

Variable Marshal : Options -> option Entity -> json.value * option error.
Variable handler_stripEntError : error -> string.

(** C7.  When the validator reports an [InvalidValidationError] (the rule
    evaluator itself is at fault, no field is), each create handler answers
    500 with a nil body, so nothing of the fault reaches the caller; it logs
    the fault once at error level and makes no call of the client. *)
Theorem Create_validator_fault (h : Handler) (r : Request) :
  (forall d, Decode.Pet (Body r) (mkPetCreateRequest None None None) = (d, None) ->
      Struct (validator_of h) (OfPet d) = Some InvalidValidationError ->
      PetHandler_Create Marshal handler_stripEntError h r
      = ([Log ErrorLevel "error validating request data"
            (create_context h ++ [zap_Error InvalidValidationError]);
          Respond 500 r_nil], Some tt))
  /\ (forall d, Decode.Group (Body r) mkGroupCreateRequest = (d, None) ->
      Struct (validator_of h) (OfGroup d) = Some InvalidValidationError ->
      GroupHandler_Create Marshal handler_stripEntError h r
      = ([Log ErrorLevel "error validating request data"
            (create_context h ++ [zap_Error InvalidValidationError]);
          Respond 500 r_nil], Some tt))
  /\ (forall d, Decode.User (Body r) (mkUserCreateRequest None None None) = (d, None) ->
      Struct (validator_of h) (OfUser d) = Some InvalidValidationError ->
      UserHandler_Create Marshal handler_stripEntError h r
      = ([Log ErrorLevel "error validating request data"
            (create_context h ++ [zap_Error InvalidValidationError]);
          Respond 500 r_nil], Some tt)).
Proof.
  repeat split; intros d Hd Hv.
  - unfold PetHandler_Create. rewrite Hd, Hv. reflexivity.
  - unfold GroupHandler_Create. rewrite Hd, Hv. reflexivity.
  - unfold UserHandler_Create. rewrite Hd, Hv. reflexivity.
Qed.

(** A create run up to a failed Save: whatever the error is, and be it a
    constraint error, the answer is 500 with a nil body, after one log entry
    at error level; the client is not queried. *)
Lemma PetHandler_Create_save_fails (h : Handler) (r : Request)
    (d : PetCreateRequest) (e : option Entity) (err : error) :
  Decode.Pet (Body r) (mkPetCreateRequest None None None) = (d, None) ->
  Struct (validator_of h) (OfPet d) = None ->
  Save (client h)
    (mkBuilder Pet (present SetName (Pet_Name d) ++ present SetAge (Pet_Age d)
                    ++ present SetOwnerID (Pet_Owner d))) = (e, Some err) ->
  PetHandler_Create Marshal handler_stripEntError h r
  = ([Call_Save (mkBuilder Pet (present SetName (Pet_Name d) ++ present SetAge (Pet_Age d)
                                ++ present SetOwnerID (Pet_Owner d)));
      Log ErrorLevel "error saving pet" (create_context h ++ [zap_Error err]);
      Respond 500 r_nil], Some tt).
Proof.
  intros Hd Hv Hs. unfold PetHandler_Create. rewrite Hd, Hv.
  destruct d as [[n|] [a|] [o|]]; simpl in *; unfold_run; unfold set, Create; simpl;
    rewrite Hs; reflexivity.
Qed.

Lemma GroupHandler_Create_save_fails (h : Handler) (r : Request)
    (d : GroupCreateRequest) (e : option Entity) (err : error) :
  Decode.Group (Body r) mkGroupCreateRequest = (d, None) ->
  Struct (validator_of h) (OfGroup d) = None ->
  Save (client h) (mkBuilder Group []) = (e, Some err) ->
  GroupHandler_Create Marshal handler_stripEntError h r
  = ([Call_Save (mkBuilder Group []);
      Log ErrorLevel "error saving group" (create_context h ++ [zap_Error err]);
      Respond 500 r_nil], Some tt).
Proof.
  intros Hd Hv Hs. unfold GroupHandler_Create. rewrite Hd, Hv.
  unfold_run; unfold Create; simpl; rewrite Hs; reflexivity.
Qed.

Lemma UserHandler_Create_save_fails (h : Handler) (r : Request)
    (d : UserCreateRequest) (e : option Entity) (err : error) :
  Decode.User (Body r) (mkUserCreateRequest None None None) = (d, None) ->
  Struct (validator_of h) (OfUser d) = None ->
  Save (client h)
    (mkBuilder User (present SetName (User_Name d) ++ present SetAge (User_Age d)
                     ++ present AddPetIDs (User_Pets d))) = (e, Some err) ->
  UserHandler_Create Marshal handler_stripEntError h r
  = ([Call_Save (mkBuilder User (present SetName (User_Name d) ++ present SetAge (User_Age d)
                                 ++ present AddPetIDs (User_Pets d)));
      Log ErrorLevel "error saving user" (create_context h ++ [zap_Error err]);
      Respond 500 r_nil], Some tt).
Proof.
  intros Hd Hv Hs. unfold UserHandler_Create. rewrite Hd, Hv.
  destruct d as [[n|] [a|] [ps|]]; simpl in *; unfold_run; unfold set, Create; simpl;
    rewrite Hs; reflexivity.
Qed.

(** C6 (amended).  For every create whose Save fails, the response is 500
    with a nil body whatever the storage error is, a referential-integrity
    (constraint) violation included: the run is the Save, one log entry at
    error level and the response, and no query follows. *)
Theorem Create_save_error_is_500 (h : Handler) (r : Request)
    (e : option Entity) (err : error) :
  (forall d,
      Decode.Pet (Body r) (mkPetCreateRequest None None None) = (d, None) ->
      Struct (validator_of h) (OfPet d) = None ->
      let b := mkBuilder Pet (present SetName (Pet_Name d) ++ present SetAge (Pet_Age d)
                              ++ present SetOwnerID (Pet_Owner d)) in
      Save (client h) b = (e, Some err) ->
      PetHandler_Create Marshal handler_stripEntError h r
      = ([Call_Save b;
          Log ErrorLevel "error saving pet" (create_context h ++ [zap_Error err]);
          Respond 500 r_nil], Some tt))
  /\ (forall d,
      Decode.Group (Body r) mkGroupCreateRequest = (d, None) ->
      Struct (validator_of h) (OfGroup d) = None ->
      Save (client h) (mkBuilder Group []) = (e, Some err) ->
      GroupHandler_Create Marshal handler_stripEntError h r
      = ([Call_Save (mkBuilder Group []);
          Log ErrorLevel "error saving group" (create_context h ++ [zap_Error err]);
          Respond 500 r_nil], Some tt))
  /\ (forall d,
      Decode.User (Body r) (mkUserCreateRequest None None None) = (d, None) ->
      Struct (validator_of h) (OfUser d) = None ->
      let b := mkBuilder User (present SetName (User_Name d) ++ present SetAge (User_Age d)
                               ++ present AddPetIDs (User_Pets d)) in
      Save (client h) b = (e, Some err) ->
      UserHandler_Create Marshal handler_stripEntError h r
      = ([Call_Save b;
          Log ErrorLevel "error saving user" (create_context h ++ [zap_Error err]);
          Respond 500 r_nil], Some tt)).
Proof.
  split; [|split]; intros d Hd Hv.
  - intros b Hs. apply (PetHandler_Create_save_fails h r d e err); assumption.
  - intros Hs. apply (GroupHandler_Create_save_fails h r d e err); assumption.
  - intros b Hs. apply (UserHandler_Create_save_fails h r d e err); assumption.
Qed.

End Create_faults.

(** A validator set up wrongly: the pet of the post is answered with 500 and
    a nil body. *)
Lemma Create_validator_fault_witness :
  PetHandler_Create Serializer.Marshal Examples.strip
    (mkHandler Examples.store Examples.logger Examples.faulty)
    (Examples.post Examples.kuro_body)
  = ([Log ErrorLevel "error validating request data"
        [zap_String "handler" "PetHandler"; zap_String "method" "Create";
         zap_Error InvalidValidationError];
      Respond 500 r_nil], Some tt).
Proof.
  exact (proj1 (Create_validator_fault Serializer.Marshal Examples.strip
                  (mkHandler Examples.store Examples.logger Examples.faulty)
                  (Examples.post Examples.kuro_body))
           (mkPetCreateRequest (Some "Kuro") (Some 3) (Some 1)) eq_refl eq_refl).
Defined.

(** C6 (counterexample).  The pet of the post is saved by a client that
    reports a constraint error (the owner does not exist): the claim asks for
    400, the handler answers 500. *)
Lemma Create_constraint_error_not_400 :
  IsConstraintError (ConstraintError "FOREIGN KEY constraint failed") = true
  /\ responses (trace (PetHandler_Create Serializer.Marshal Examples.strip
                         (Examples.handler (Examples.store_save_fails
                            (ConstraintError "FOREIGN KEY constraint failed")))
                         (Examples.post Examples.kuro_body)))
     = [(500, r_nil)].
Proof.
  split; reflexivity.
Qed.

(** The same request under the amended claim. *)
Lemma Create_save_error_is_500_witness :
  responses (trace (PetHandler_Create Serializer.Marshal Examples.strip
                      (Examples.handler (Examples.store_save_fails
                         (ConstraintError "FOREIGN KEY constraint failed")))
                      (Examples.post Examples.kuro_body)))
  = [(500, r_nil)].
Proof.
  rewrite (proj1 (Create_save_error_is_500 Serializer.Marshal Examples.strip
                  (Examples.handler (Examples.store_save_fails
                     (ConstraintError "FOREIGN KEY constraint failed")))
                  (Examples.post Examples.kuro_body)
                  None (ConstraintError "FOREIGN KEY constraint failed"))
             (mkPetCreateRequest (Some "Kuro") (Some 3) (Some 1))
             eq_refl eq_refl eq_refl).
  reflexivity.
Defined.

(** ** Create: the reload after the write *)

Section Create_reload.

Variable Marshal : Options -> option Entity -> json.value * option error.
Variable stripEntError : error -> string.
Variable handler_stripEntError : error -> string.

(** A Pet create run whose write succeeded and whose reload failed: the Save,
    the query for the identifier the write returned, and then the above. *)
Lemma PetHandler_Create_reload_fails (h : Handler) (r : Request)
    (d : PetCreateRequest) (e : Entity) (e' : option Entity) (err : error) :
  Decode.Pet (Body r) (mkPetCreateRequest None None None) = (d, None) ->
  Struct (validator_of h) (OfPet d) = None ->
  Save (client h)
    (mkBuilder Pet (present SetName (Pet_Name d) ++ present SetAge (Pet_Age d)
                    ++ present SetOwnerID (Pet_Owner d))) = (Some e, None) ->
  Only (client h) (mkQuery Pet (ID e) []) = (e', Some err) ->
  PetHandler_Create Marshal handler_stripEntError h r
  = (Call_Save (mkBuilder Pet (present SetName (Pet_Name d) ++ present SetAge (Pet_Age d)
                               ++ present SetOwnerID (Pet_Owner d)))
     :: Call_Only (mkQuery Pet (ID e) [])
     :: fst (Pet_after_failed_reload handler_stripEntError h e' err),
     snd (Pet_after_failed_reload handler_stripEntError h e' err)).
Proof.
  intros Hd Hv Hs Ho. unfold PetHandler_Create. rewrite Hd, Hv.
  destruct d as [[n|] [a|] [o|]]; simpl in *; unfold_run; unfold set, Create; simpl;
    rewrite Hs; simpl; rewrite Ho; simpl;
    destruct e' as [e1|]; destruct err; reflexivity.
Qed.

(** The read handler on a query that reports [NotSingularError]: 400. *)
Lemma PetHandler_Read_NotSingular (h : Handler) (r : Request) (id : Z)
    (e : option Entity) (label : string) :
  strconv.Atoi (URLParam r "id") = inl id ->
  Only (client h) (mkQuery Pet id []) = (e, Some (NotSingularError label)) ->
  responses (trace (PetHandler_Read Marshal stripEntError h r))
  = [(400, r_string (stripEntError (NotSingularError label)))].
Proof.
  intros Ha Ho. unfold PetHandler_Read. rewrite Ha.
  unfold_run; simpl. rewrite Ho. reflexivity.
Qed.

(** C2 (the code at the failing input).  The claim: every fetch by identifier
    that reports NotSingular is answered with 400, the reload after a create
    included.  The read handler does so; the create handler has no case for
    [NotSingularError] in the switch after its reload and takes the default
    branch: it answers 500 when the reload left a pointer to read the
    identifier from, and panics without any response when the pointer is nil.
    In neither case is 400 written. *)
Theorem Create_reload_NotSingular (h : Handler) (r : Request)
    (d : PetCreateRequest) (e : Entity) (e' : option Entity) (label : string) :
  Decode.Pet (Body r) (mkPetCreateRequest None None None) = (d, None) ->
  Struct (validator_of h) (OfPet d) = None ->
  Save (client h)
    (mkBuilder Pet (present SetName (Pet_Name d) ++ present SetAge (Pet_Age d)
                    ++ present SetOwnerID (Pet_Owner d))) = (Some e, None) ->
  Only (client h) (mkQuery Pet (ID e) []) = (e', Some (NotSingularError label)) ->
  let run := PetHandler_Create Marshal handler_stripEntError h r in
  responses (trace run) = match e' with Some _ => [(500, r_nil)] | None => [] end
  /\ panicked run = match e' with Some _ => false | None => true end
  /\ ~ In 400 (map fst (responses (trace run))).
Proof.
  intros Hd Hv Hs Ho run. subst run.
  rewrite (PetHandler_Create_reload_fails h r d e e' _ Hd Hv Hs Ho).
  destruct e' as [e1|]; simpl; repeat split; try (intros [H|[]]; discriminate); auto.
Qed.

(** C5 (the code at the failing input).  The claim: after a successful write
    the create handler re-queries the entity by the identifier the write
    returned, and answers 404 when that reload reports NotFound.  The second
    event of the run is indeed the query for that identifier.  But the branch
    for [NotFoundError] reads [e.ID] of the pointer the failed reload
    returned: 404 is written only if that pointer is not nil; with the nil
    pointer that comes with the error the run panics and nothing is logged
    or written. *)
Theorem Create_reload_NotFound (h : Handler) (r : Request)
    (d : PetCreateRequest) (e : Entity) (e' : option Entity) (label : string) :
  Decode.Pet (Body r) (mkPetCreateRequest None None None) = (d, None) ->
  Struct (validator_of h) (OfPet d) = None ->
  Save (client h)
    (mkBuilder Pet (present SetName (Pet_Name d) ++ present SetAge (Pet_Age d)
                    ++ present SetOwnerID (Pet_Owner d))) = (Some e, None) ->
  Only (client h) (mkQuery Pet (ID e) []) = (e', Some (NotFoundError label)) ->
  let run := PetHandler_Create Marshal handler_stripEntError h r in
  nth_error (trace run) 1 = Some (Call_Only (mkQuery Pet (ID e) []))
  /\ responses (trace run)
     = match e' with
       | Some _ => [(404, r_string (handler_stripEntError (NotFoundError label)))]
       | None => []
       end
  /\ log_entries (trace run)
     = match e' with
       | Some e1 => [(InfoLevel, handler_stripEntError (NotFoundError label),
                      create_context h ++ [zap_Int "id" (ID e1); zap_Error (NotFoundError label)])]
       | None => []
       end
  /\ panicked run = match e' with Some _ => false | None => true end.
Proof.
  intros Hd Hv Hs Ho run. subst run.
  rewrite (PetHandler_Create_reload_fails h r d e e' _ Hd Hv Hs Ho).
  destruct e' as [e1|]; simpl; repeat split.
Qed.

End Create_reload.

(** The pet of the post is written, and the reload reports two rows, as ent
    does: with a nil entity.  No response is written. *)
Lemma Create_reload_NotSingular_witness :
  responses (trace (PetHandler_Create Serializer.Marshal Examples.strip
                      (Examples.handler (Examples.store_query_fails (NotSingularError "pet")))
                      (Examples.post Examples.kuro_body))) = []
  /\ panicked (PetHandler_Create Serializer.Marshal Examples.strip
                 (Examples.handler (Examples.store_query_fails (NotSingularError "pet")))
                 (Examples.post Examples.kuro_body)) = true.
Proof.
  destruct (Create_reload_NotSingular Serializer.Marshal Examples.strip
              (Examples.handler (Examples.store_query_fails (NotSingularError "pet")))
              (Examples.post Examples.kuro_body)
              (mkPetCreateRequest (Some "Kuro") (Some 3) (Some 1))
              Examples.kuro None "pet" eq_refl eq_refl eq_refl eq_refl)
    as (R & P & _).
  split; [exact R | exact P].
Defined.

(** The pet of the post is written and deleted before the reload, which
    reports no row, as ent does: with a nil entity.  The handler queried for
    the pet, and then panicked: no 404. *)
Lemma Create_reload_NotFound_witness :
  client_calls (trace (PetHandler_Create Serializer.Marshal Examples.strip
                      (Examples.handler (Examples.store_query_fails (NotFoundError "pet")))
                      (Examples.post Examples.kuro_body)))
  = [Call_Save (mkBuilder Pet [SetName "Kuro"; SetAge 3; SetOwnerID 1]);
     Call_Only (mkQuery Pet 1 [])]
  /\ responses (trace (PetHandler_Create Serializer.Marshal Examples.strip
                      (Examples.handler (Examples.store_query_fails (NotFoundError "pet")))
                      (Examples.post Examples.kuro_body))) = []
  /\ panicked (PetHandler_Create Serializer.Marshal Examples.strip
                 (Examples.handler (Examples.store_query_fails (NotFoundError "pet")))
                 (Examples.post Examples.kuro_body)) = true.
Proof.
  destruct (Create_reload_NotFound Serializer.Marshal Examples.strip
              (Examples.handler (Examples.store_query_fails (NotFoundError "pet")))
              (Examples.post Examples.kuro_body)
              (mkPetCreateRequest (Some "Kuro") (Some 3) (Some 1))
              Examples.kuro None "pet" eq_refl eq_refl eq_refl eq_refl)
    as (_ & R & _ & P).
  split; [reflexivity | split; [exact R | exact P]].
Defined.

(** ** Logging *)

Section Logging.

Variable Marshal : Options -> option Entity -> json.value * option error.
Variable stripEntError : error -> string.
Variable handler_stripEntError : error -> string.








End Logging.



(** ** Serialization *)

Section Serialization.

Import Serializer.

Lemma mem_ext (a a' : list string) (t : string) :
  (forall g, In g a <-> In g a') ->
  existsb (String.eqb t) a' = existsb (String.eqb t) a.
Proof.
  intros H. apply eq_true_iff_eq. rewrite !existsb_exists.
  split; intros [x [Hx E]]; exists x; split; auto; apply H; auto.
Qed.

Lemma intersects_ext (a a' tags : list string) :
  (forall g, In g a <-> In g a') ->
  intersects tags a' = intersects tags a.
Proof.
  intros H. unfold intersects.
  induction tags as [|t tags IH]; simpl; [reflexivity|].
  rewrite IH, (mem_ext a a' t H). reflexivity.
Qed.

Lemma field_emitted_ext (a a' : list string) f :
  (forall g, In g a <-> In g a') ->
  field_emitted a' f = field_emitted a f.
Proof.
  intros H. unfold field_emitted.
  destruct (snd (fst f)) as [|t tags]; [reflexivity|].
  apply intersects_ext, H.
Qed.

(** The output depends on the active groups as a set: neither their order
    nor repetitions matter. *)
Lemma serialize_ext (a a' : list string) :
  (forall g, In g a <-> In g a') ->
  forall e, serialize a' e = serialize a e.
Proof.
  intros H. fix IH 1. intros [id fs es]. simpl. f_equal. f_equal. f_equal.
  - f_equal. apply filter_ext. intros f. apply field_emitted_ext, H.
  - induction es as [|[n tags ts] es IHes]; simpl; [reflexivity|].
    f_equal; [|exact IHes]. f_equal.
    rewrite (intersects_ext a a' tags H).
    destruct (intersects tags a); [|reflexivity].
    f_equal.
    induction ts as [|t ts IHts]; simpl; [reflexivity|].
    f_equal; [apply IH | exact IHts].
Qed.

Lemma edge_rendered (active : list string) (e : Entity) (d : Edge) :
  In d (edges e) ->
  In (edge_name d,
      if intersects (edge_groups d) active
      then json.Array (map (serialize active) (edge_targets d))
      else placeholder)
     (members (serialize active e)).
Proof.
  destruct e as [id fs es]. simpl. intros Hd. right.
  apply in_or_app. right.
  apply in_map_iff. exists d. split; [|exact Hd].
  destruct d as [n tags ts]. reflexivity.
Qed.

Lemma GroupHandler_Read_renders (stripEntError : error -> string)
    (h : Handler) (r : Request) (id : Z) (e : Entity) :
  strconv.Atoi (URLParam r "id") = inl id ->
  Only (client h) (mkQuery Group id []) = (Some e, None) ->
  responses (trace (GroupHandler_Read Marshal stripEntError h r))
  = [(200, r_data (serialize ["group"] e))].
Proof.
  intros Ha Ho. unfold GroupHandler_Read. rewrite Ha.
  unfold_run; simpl. rewrite Ho. reflexivity.
Qed.

Lemma PetHandler_Create_renders (handler_stripEntError : error -> string)
    (h : Handler) (r : Request) (d : PetCreateRequest) (e0 e : Entity) :
  Decode.Pet (Body r) (mkPetCreateRequest None None None) = (d, None) ->
  Struct (validator_of h) (OfPet d) = None ->
  Save (client h)
    (mkBuilder Pet (present SetName (Pet_Name d) ++ present SetAge (Pet_Age d)
                    ++ present SetOwnerID (Pet_Owner d))) = (Some e0, None) ->
  Only (client h) (mkQuery Pet (ID e0) []) = (Some e, None) ->
  responses (trace (PetHandler_Create Marshal handler_stripEntError h r))
  = [(200, r_data (serialize ["pet"] e))].
Proof.
  intros Hd Hv Hs Ho. unfold PetHandler_Create. rewrite Hd, Hv.
  destruct d as [[n|] [a|] [o|]]; simpl in *; unfold_run; unfold set, Create; simpl;
    rewrite Hs; simpl; rewrite Ho; reflexivity.
Qed.

(** C9.  Serialization, as the spec describes the serializer, is stable: the
    output is a function of the entity and of the active group set (the same
    entity with the same groups, in any order and with any repetition, gives
    the identical output), and every relation of the entity is a key of the
    output: a relation whose tags do not meet the active set is rendered as
    the explicitly-empty placeholder, never left out.  With this serializer
    the read handler of Group and the create handler of Pet answer 200 with
    the serialization of the entity the client found, under the handler's
    fixed group. *)
Theorem serialization_stable (active : list string) (e : Entity) :
  (forall active', (forall g, In g active <-> In g active') ->
      serialize active' e = serialize active e)
  /\ (forall d, In d (edges e) ->
      In (edge_name d) (map fst (members (serialize active e)))
      /\ (intersects (edge_groups d) active = false ->
          In (edge_name d, placeholder) (members (serialize active e))))
  /\ (forall strip h r id,
      strconv.Atoi (URLParam r "id") = inl id ->
      Only (client h) (mkQuery Group id []) = (Some e, None) ->
      responses (trace (GroupHandler_Read Marshal strip h r))
      = [(200, r_data (serialize ["group"] e))])
  /\ (forall strip h r d e0,
      Decode.Pet (Body r) (mkPetCreateRequest None None None) = (d, None) ->
      Struct (validator_of h) (OfPet d) = None ->
      Save (client h)
        (mkBuilder Pet (present SetName (Pet_Name d) ++ present SetAge (Pet_Age d)
                        ++ present SetOwnerID (Pet_Owner d))) = (Some e0, None) ->
      Only (client h) (mkQuery Pet (ID e0) []) = (Some e, None) ->
      responses (trace (PetHandler_Create Marshal strip h r))
      = [(200, r_data (serialize ["pet"] e))]).
Proof.
  split; [|split; [|split]].
  - intros active' H. apply serialize_ext, H.
  - intros d Hd. pose proof (edge_rendered active e d Hd) as Hin. split.
    + apply in_map_iff. eexists. split; [|exact Hin]. reflexivity.
    + intros Hout. rewrite Hout in Hin. exact Hin.
  - intros strip h r id. apply GroupHandler_Read_renders.
  - intros strip h r d e0. apply PetHandler_Create_renders.
Qed.

End Serialization.

(** The pet of the post under the group of its handler: the owner, which is
    not in the group, is there as the empty placeholder. *)
Lemma serialization_stable_witness :
  In ("owner", Serializer.placeholder)
     (Serializer.members (Serializer.serialize ["pet"] Examples.kuro))
  /\ Serializer.serialize ["pet"; "pet"] Examples.kuro
     = Serializer.serialize ["pet"] Examples.kuro.
Proof.
  split.
  - exact (proj2 (proj1 (proj2 (serialization_stable ["pet"] Examples.kuro))
                    (mkEdge "owner" [] []) (or_introl eq_refl)) eq_refl).
  - apply (proj1 (serialization_stable ["pet"] Examples.kuro)).
    intros g. simpl. tauto.
Defined.

(** ** Group create and the request body *)

Section Group_body.

Variable Marshal : Options -> option Entity -> json.value * option error.
Variable handler_stripEntError : error -> string.




End Group_body.



(** * Further properties of the handlers *)

(** ** Read *)

Section Read_runs.

Variable Marshal : Options -> option Entity -> json.value * option error.
Variable stripEntError : error -> string.

Ltac read_cases k :=
  destruct k; unfold Read_of, GroupHandler_Read, PetHandler_Read, UserHandler_Read;
  unfold_run; simpl; repeat (branch; simpl).

(** Every read run, whatever the request and whatever the client and the
    serializer do, returns without a panic after exactly one response; it
    never calls Save and queries the client at most once. *)
Theorem Read_always_responds (k : Kind) (h : Handler) (r : Request) :
  panicked (Read_of Marshal stripEntError k h r) = false
  /\ List.length (responses (trace (Read_of Marshal stripEntError k h r))) = 1%nat
  /\ saves (trace (Read_of Marshal stripEntError k h r)) = []
  /\ (List.length (client_calls (trace (Read_of Marshal stripEntError k h r))) <= 1)%nat.
Proof.
  read_cases k; repeat split; auto.
Qed.

(** An identifier that [Atoi] rejects (no integer, out of range, or no
    parameter at all): the run is one error-level log entry with the raw
    parameter and the 400 with the fixed message; the client is not called. *)
Theorem Read_rejects_unparsable_id (k : Kind) (h : Handler) (r : Request) (err : error) :
  strconv.Atoi (URLParam r "id") = inr err ->
  Read_of Marshal stripEntError k h r
  = ([Log ErrorLevel "error getting id from url parameter"
        (read_context h ++ [zap_String "id" (URLParam r "id"); zap_Error err]);
      Respond 400 (r_string "id must be an integer greater zero")], Some tt).
Proof.
  intros E.
  destruct k; unfold Read_of, GroupHandler_Read, PetHandler_Read, UserHandler_Read;
    rewrite E; reflexivity.
Qed.

(** With an identifier that parses, the read handler makes exactly one call
    of the client: the query for that identifier, loading the pets for a user
    and no edge for a group or a pet. *)
Theorem Read_queries_parsed_id (k : Kind) (h : Handler) (r : Request) (id : Z) :
  strconv.Atoi (URLParam r "id") = inl id ->
  client_calls (trace (Read_of Marshal stripEntError k h r))
  = [Call_Only (mkQuery k id (eager_of k))].
Proof.
  intros E.
  destruct k; unfold Read_of, GroupHandler_Read, PetHandler_Read, UserHandler_Read;
    rewrite E; unfold_run; simpl; repeat (branch; simpl); reflexivity.
Qed.

(** How the read handler answers a failed query: NotFound with 404 and the
    stripped message, logged at info level; NotSingular with 400 and the
    stripped message, logged at error level; any other error with 500 and a
    nil body, logged at error level with a fixed message.  The entity pointer
    that comes with the error is not looked at. *)
Theorem Read_failed_query (k : Kind) (h : Handler) (r : Request) (id : Z)
    (e : option Entity) (err : error) :
  strconv.Atoi (URLParam r "id") = inl id ->
  Only (client h) (mkQuery k id (eager_of k)) = (e, Some err) ->
  Read_of Marshal stripEntError k h r
  = (Call_Only (mkQuery k id (eager_of k))
     :: (if IsNotFound err then
           [Log InfoLevel (stripEntError err)
              (read_context h ++ [zap_Int "id" id; zap_Error err]);
            Respond 404 (r_string (stripEntError err))]
         else if IsNotSingular err then
           [Log ErrorLevel (stripEntError err)
              (read_context h ++ [zap_Int "id" id; zap_Error err]);
            Respond 400 (r_string (stripEntError err))]
         else
           [Log ErrorLevel (fetch_message k)
              (read_context h ++ [zap_Int "id" id; zap_Error err]);
            Respond 500 r_nil]),
     Some tt).
Proof.
  intros E Ho.
  destruct k; unfold Read_of, GroupHandler_Read, PetHandler_Read, UserHandler_Read;
    rewrite E; unfold_run; simpl in *; rewrite Ho;
    destruct (IsNotFound err); [reflexivity | destruct (IsNotSingular err); reflexivity
                               | reflexivity | destruct (IsNotSingular err); reflexivity
                               | reflexivity | destruct (IsNotSingular err); reflexivity].
Qed.

(** How the read handler answers a query that succeeded: 200 with what the
    serializer made of the entity under the group of the kind, logged at info
    level; 500 with a nil body when the serializer fails, logged at error
    level. *)
Theorem Read_found (k : Kind) (h : Handler) (r : Request) (id : Z) (e : option Entity) :
  strconv.Atoi (URLParam r "id") = inl id ->
  Only (client h) (mkQuery k id (eager_of k)) = (e, None) ->
  Read_of Marshal stripEntError k h r
  = (Call_Only (mkQuery k id (eager_of k))
     :: match Marshal (options_of k) e with
        | (d, None) =>
            [Log InfoLevel (rendered_message k) (read_context h ++ [zap_Int "id" id]);
             Respond 200 (r_data d)]
        | (_, Some err) =>
            [Log ErrorLevel "serialization error"
               (read_context h ++ [zap_Int "id" id; zap_Error err]);
             Respond 500 r_nil]
        end,
     Some tt).
Proof.
  intros E Ho.
  destruct k; unfold Read_of, GroupHandler_Read, PetHandler_Read, UserHandler_Read;
    rewrite E; unfold_run; simpl in *; rewrite Ho; unfold options_of; simpl;
    destruct (Marshal _ e) as [d [err|]]; reflexivity.
Qed.

End Read_runs.

(** ** Create *)

Section Create_runs.

Variable Marshal : Options -> option Entity -> json.value * option error.
Variable handler_stripEntError : error -> string.

(** Splits a statement on the kind and rewrites the handler with the result
    [H] of decoding the body. *)
Ltac decoded k H :=
  destruct k; unfold Decode_of in H;
  match type of H with
  | (let '(_, _) := ?x in _) = _ =>
      let D := fresh "D" in
      destruct x as [? ?] eqn:D; inversion H; subst; clear H;
      unfold Create_of, GroupHandler_Create, PetHandler_Create, UserHandler_Create;
      rewrite D
  end.

(** The builder the handler has made of a payload is [builder_of]. *)
Ltac built :=
  repeat match goal with
         | d : PetCreateRequest |- _ => destruct d as [[?|] [?|] [?|]]
         | d : UserCreateRequest |- _ => destruct d as [[?|] [?|] [?|]]
         end;
  simpl in *; unfold_run; unfold set, Create; simpl.

Lemma Create_undecodable_run (k : Kind) (h : Handler) (r : Request)
    (p : payload) (err : error) :
  Decode_of k (Body r) = (p, Some err) ->
  Create_of Marshal handler_stripEntError k h r
  = ([Log ErrorLevel "error decoding json" (create_context h ++ [zap_Error err]);
      Respond 400 (r_string "invalid json string")], Some tt).
Proof.
  intros H. decoded k H; reflexivity.
Qed.

(** A body the decoder reports an error for (no JSON text, a value that is
    neither an object nor null, a member of the wrong type): the run is one
    error-level log entry and the 400 with the fixed message, whatever the
    validator is; the client is not called. *)
Theorem Create_rejects_undecodable (k : Kind) (h : Handler) (r : Request)
    (p : payload) (err : error) :
  Decode_of k (Body r) = (p, Some err) ->
  Create_of Marshal handler_stripEntError k h r
  = ([Log ErrorLevel "error decoding json" (create_context h ++ [zap_Error err]);
      Respond 400 (r_string "invalid json string")], Some tt).
Proof.
  apply Create_undecodable_run.
Qed.

(** A create run calls the client only for a body that decoded without an
    error into a payload the validator returned nil for. *)
Theorem Create_calls_client_only_when_valid (k : Kind) (h : Handler) (r : Request) :
  client_calls (trace (Create_of Marshal handler_stripEntError k h r)) <> [] ->
  exists p, Decode_of k (Body r) = (p, None) /\ Struct (validator_of h) p = None.
Proof.
  intros H.
  destruct (Decode_of k (Body r)) as [p [err|]] eqn:D.
  - exfalso. apply H. rewrite (Create_undecodable_run k h r p err D). reflexivity.
  - exists p. split; [reflexivity|].
    destruct (Struct (validator_of h) p) as [verr|] eqn:V; [|reflexivity].
    exfalso. apply H. clear H.
    decoded k D; rewrite V; destruct verr; reflexivity.
Qed.

(** When the write succeeded and the reload fails with a nil entity (as ent
    returns it with any error), every create handler panics right after the
    query: the run holds the Save and the query, no log entry and no
    response. *)
Theorem Create_panics_on_failed_reload (k : Kind) (h : Handler) (r : Request)
    (p : payload) (e : Entity) (err : error) :
  Decode_of k (Body r) = (p, None) ->
  Struct (validator_of h) p = None ->
  Save (client h) (builder_of p) = (Some e, None) ->
  Only (client h) (mkQuery k (ID e) []) = (None, Some err) ->
  Create_of Marshal handler_stripEntError k h r
  = ([Call_Save (builder_of p); Call_Only (mkQuery k (ID e) [])], None).
Proof.
  intros H Hv Hs Ho.
  decoded k H; rewrite Hv; built; rewrite Hs; simpl; rewrite Ho; simpl;
    destruct err; reflexivity.
Qed.

(** When the write and the reload both succeed, the create handler answers
    with the serialization of the reloaded entity: the query is for the
    identifier of the written entity and loads no edge (also for a user); the
    log entry carries the identifier of the reloaded entity; a failure of the
    serializer gives 500 with a nil body. *)
Theorem Create_renders_reloaded (k : Kind) (h : Handler) (r : Request)
    (p : payload) (e e' : Entity) :
  Decode_of k (Body r) = (p, None) ->
  Struct (validator_of h) p = None ->
  Save (client h) (builder_of p) = (Some e, None) ->
  Only (client h) (mkQuery k (ID e) []) = (Some e', None) ->
  Create_of Marshal handler_stripEntError k h r
  = (Call_Save (builder_of p)
     :: Call_Only (mkQuery k (ID e) [])
     :: match Marshal (options_of k) (Some e') with
        | (j, None) =>
            [Log InfoLevel (rendered_message k) (create_context h ++ [zap_Int "id" (ID e')]);
             Respond 200 (r_data j)]
        | (_, Some err) =>
            [Log ErrorLevel "serialization error"
               (create_context h ++ [zap_Int "id" (ID e'); zap_Error err]);
             Respond 500 r_nil]
        end,
     Some tt).
Proof.
  intros H Hv Hs Ho.
  decoded k H; rewrite Hv; built; rewrite Hs; simpl; rewrite Ho; simpl;
    unfold options_of; simpl;
    match goal with |- context [Marshal ?o ?x] => destruct (Marshal o x) as [j [err|]] end;
    reflexivity.
Qed.

Ltac create_cases k :=
  destruct k; unfold Create_of, GroupHandler_Create, PetHandler_Create, UserHandler_Create;
  unfold_run; simpl; repeat (branch; simpl).

(** The shape of every create run.  It calls Save at most once and the client
    at most twice.  A run that returns has written exactly one response.  A
    run that panics has written no response and no log entry, and it panics
    only after it has called Save: the write may have happened although the
    caller gets no answer. *)
Theorem Create_run_shape (k : Kind) (h : Handler) (r : Request) :
  (List.length (saves (trace (Create_of Marshal handler_stripEntError k h r))) <= 1)%nat
  /\ (List.length (client_calls (trace (Create_of Marshal handler_stripEntError k h r))) <= 2)%nat
  /\ (if panicked (Create_of Marshal handler_stripEntError k h r)
      then responses (trace (Create_of Marshal handler_stripEntError k h r)) = []
           /\ log_entries (trace (Create_of Marshal handler_stripEntError k h r)) = []
           /\ exists b, hd_error (trace (Create_of Marshal handler_stripEntError k h r))
                        = Some (Call_Save b)
      else List.length (responses (trace (Create_of Marshal handler_stripEntError k h r)))
           = 1%nat).
Proof.
  create_cases k; repeat split; auto; eexists; reflexivity.
Qed.

End Create_runs.

(** ** Responses and log entries of all handlers *)

Section Responses.

Variable Marshal : Options -> option Entity -> json.value * option error.
Variable stripEntError : error -> string.
Variable handler_stripEntError : error -> string.

(** Every response of a create or read run is one of: 200 with serialized
    data, 400 with a message or with the validator's error, 404 with a
    message, 500 with a nil body.  In particular a 500 never carries a
    detail of the fault. *)
Theorem responses_well_formed (k : Kind) (h : Handler) (r : Request) :
  forallb response_ok (responses (trace (Create_of Marshal handler_stripEntError k h r))) = true
  /\ forallb response_ok (responses (trace (Read_of Marshal stripEntError k h r))) = true.
Proof.
  split.
  - destruct k; unfold Create_of, GroupHandler_Create, PetHandler_Create, UserHandler_Create;
      unfold_run; simpl; repeat (branch; simpl); reflexivity.
  - destruct k; unfold Read_of, GroupHandler_Read, PetHandler_Read, UserHandler_Read;
      unfold_run; simpl; repeat (branch; simpl); reflexivity.
Qed.

End Responses.

(** ** What reaches the storage *)

Section Stored_pets.

Variable Marshal : Options -> option Entity -> json.value * option error.
Variable handler_stripEntError : error -> string.


End Stored_pets.

(** ** Log entries *)

Section Log_context.

Variable Marshal : Options -> option Entity -> json.value * option error.
Variable stripEntError : error -> string.
Variable handler_stripEntError : error -> string.

Lemma starts_with_app (ctx p rest : list zapField) :
  starts_with (ctx ++ p) (ctx ++ p ++ rest).
Proof.
  induction ctx as [|f ctx IH]; simpl.
  - induction p as [|f p IHp]; simpl; auto.
  - split; [reflexivity | exact IH].
Qed.

Ltac entry :=
  simpl; rewrite <- ?app_assoc; simpl;
  match goal with
  | |- starts_with (?ctx ++ [?a; ?b]) (?ctx ++ ?a :: ?b :: ?rest) =>
      exact (starts_with_app ctx [a; b] rest)
  end.

Ltac entries := repeat (constructor; [entry|]); try constructor.

(** Every entry a pet handler made by [NewPetHandler] logs starts with the
    fields of the logger it was given, then the name of the handler, then
    the method, whatever the request and the outcome. *)
Theorem NewPetHandler_log_context (c : Client) (l : Logger) (v : Validate) (r : Request) :
  Forall (fun en => starts_with
            (context l ++ [zap_String "handler" "PetHandler"; zap_String "method" "Create"])
            (snd en))
    (log_entries (trace (PetHandler_Create Marshal handler_stripEntError
                           (NewPetHandler c l v) r)))
  /\ Forall (fun en => starts_with
               (context l ++ [zap_String "handler" "PetHandler"; zap_String "method" "Read"])
               (snd en))
       (log_entries (trace (PetHandler_Read Marshal stripEntError (NewPetHandler c l v) r))).
Proof.
  split.
  - unfold PetHandler_Create, NewPetHandler, With. unfold_run; simpl;
      repeat (branch; simpl); entries.
  - unfold PetHandler_Read, NewPetHandler, With. unfold_run; simpl;
      repeat (branch; simpl); entries.
Qed.

End Log_context.

(** ** The body of a pet create *)

Section Pet_body.

Variable Marshal : Options -> option Entity -> json.value * option error.
Variable handler_stripEntError : error -> string.

Lemma Pet_member_unknown (st : PetCreateRequest * option error)
    (key : string) (v : json.value) :
  Pet_key key = false ->
  Decode.Pet_member st (key, v) = st.
Proof.
  unfold Pet_key. intros H.
  apply orb_false_iff in H. destruct H as [H Ho].
  apply orb_false_iff in H. destruct H as [Hn Ha].
  destruct st as [d saved]. unfold Decode.Pet_member.
  rewrite Hn, Ha, Ho. reflexivity.
Qed.

Lemma Pet_members_known (ms : list (string * json.value))
    (st : PetCreateRequest * option error) :
  fold_left Decode.Pet_member (filter (fun m => Pet_key (fst m)) ms) st
  = fold_left Decode.Pet_member ms st.
Proof.
  revert st. induction ms as [|[key v] ms IH]; intros st; simpl; [reflexivity|].
  destruct (Pet_key key) eqn:K; simpl.
  - apply IH.
  - rewrite (Pet_member_unknown st key v K). apply IH.
Qed.

(** Members of the body that go to no field of the payload are ignored: the
    pet create handler runs on an object exactly as on the object without
    them, wherever they stand and whatever their values are. *)
Theorem Create_ignores_unknown_members (h : Handler) (ps : list (string * string))
    (ms : list (string * json.value)) :
  PetHandler_Create Marshal handler_stripEntError h
    (mkRequest ps (WellFormed (json.Object (filter (fun m => Pet_key (fst m)) ms))))
  = PetHandler_Create Marshal handler_stripEntError h
      (mkRequest ps (WellFormed (json.Object ms))).
Proof.
  unfold PetHandler_Create. simpl Body. unfold Decode.Pet.
  rewrite Pet_members_known. reflexivity.
Qed.

Local Arguments json.simpleLetterEqualFold : simpl never.

(** Once an error is saved the decoder keeps it. *)
Lemma Pet_members_keep_error (ms : list (string * json.value))
    (d : PetCreateRequest) (e : error) :
  snd (fold_left Decode.Pet_member ms (d, Some e)) = Some e.
Proof.
  revert d. induction ms as [|[key v] ms IH]; intros d; simpl; [reflexivity|].
  destruct (json.simpleLetterEqualFold "name" key).
  { destruct (json.store_string v); apply IH. }
  destruct (json.simpleLetterEqualFold "age" key).
  { destruct (json.store_int v); apply IH. }
  destruct (json.simpleLetterEqualFold "owner" key).
  { destruct (json.store_int v); apply IH. }
  apply IH.
Qed.

Lemma Pet_members_error_iff (ms : list (string * json.value)) (d : PetCreateRequest) :
  snd (fold_left Decode.Pet_member ms (d, None)) <> None
  <-> existsb Pet_ill_typed ms = true.
Proof.
  revert d. induction ms as [|[key v] ms IH]; intros d; simpl.
  - split; [intros H; exfalso; apply H; reflexivity | discriminate].
  - destruct (json.simpleLetterEqualFold "name" key).
    { destruct (json.store_string v) as [x|e]; simpl; [apply IH|].
      rewrite Pet_members_keep_error. split; [reflexivity | discriminate]. }
    destruct (json.simpleLetterEqualFold "age" key).
    { destruct (json.store_int v) as [x|e]; simpl; [apply IH|].
      rewrite Pet_members_keep_error. split; [reflexivity | discriminate]. }
    destruct (json.simpleLetterEqualFold "owner" key).
    { destruct (json.store_int v) as [x|e]; simpl; [apply IH|].
      rewrite Pet_members_keep_error. split; [reflexivity | discriminate]. }
    simpl. apply IH.
Qed.

(** An object body is a decode error for the pet create handler exactly when
    one of its members goes to a field and has a value of the wrong kind (a
    name that is no string or null, an age or owner that is no integer in
    range or null); a later member of the right kind does not undo it.  Such
    a body is answered with 400 and the fixed message, and the client is not
    called. *)
Theorem Create_rejects_ill_typed_member (h : Handler) (ps : list (string * string))
    (ms : list (string * json.value)) :
  (snd (Decode.Pet (WellFormed (json.Object ms)) (mkPetCreateRequest None None None)) <> None
   <-> existsb Pet_ill_typed ms = true)
  /\ (existsb Pet_ill_typed ms = true ->
      responses (trace (PetHandler_Create Marshal handler_stripEntError h
                          (mkRequest ps (WellFormed (json.Object ms)))))
      = [(400, r_string "invalid json string")]
      /\ client_calls (trace (PetHandler_Create Marshal handler_stripEntError h
                                (mkRequest ps (WellFormed (json.Object ms))))) = []).
Proof.
  split; [apply Pet_members_error_iff|].
  intros H. apply Pet_members_error_iff with (d := mkPetCreateRequest None None None) in H.
  unfold PetHandler_Create. simpl Body. unfold Decode.Pet.
  destruct (fold_left Decode.Pet_member ms _) as [d [err|]]; simpl in H.
  - split; reflexivity.
  - exfalso. apply H. reflexivity.
Qed.

Lemma simpleLetterEqualFold_length (s t : string) :
  json.simpleLetterEqualFold s t = true -> String.length s = String.length t.
Proof.
  revert t. induction s as [|b s IH]; intros [|c t]; simpl; try discriminate; auto.
  intros H. apply andb_true_iff in H. destruct H as [_ H].
  f_equal. apply IH, H.
Qed.

(** An explicit null is the same as an absent field: a pet body that ends
    with a null owner (under any spelling of the key) and otherwise decodes
    is answered, with the validator of [main], with 400 and Owner in the
    error map, and nothing is stored, whatever owner an earlier member
    gave. *)
Theorem Create_null_owner_is_missing (h : Handler) (ps : list (string * string))
    (ms : list (string * json.value)) (key : string) :
  validator_of h = validator.New ->
  json.simpleLetterEqualFold "owner" key = true ->
  snd (Decode.Pet (WellFormed (json.Object ms)) (mkPetCreateRequest None None None)) = None ->
  let run := PetHandler_Create Marshal handler_stripEntError h
               (mkRequest ps (WellFormed (json.Object (ms ++ [(key, json.Null)])))) in
  exists errs,
    responses (trace run) = [(400, r_error (ValidationErrors errs))]
    /\ In "Owner" (error_fields (r_error (ValidationErrors errs)))
    /\ client_calls (trace run) = [].
Proof.
  intros Hv Hk Hd run. subst run.
  pose proof (simpleLetterEqualFold_length _ _ Hk) as Hlen.
  assert (Hn : json.simpleLetterEqualFold "name" key = false).
  { destruct (json.simpleLetterEqualFold "name" key) eqn:E; [|reflexivity].
    apply simpleLetterEqualFold_length in E. rewrite <- E in Hlen. discriminate. }
  assert (Ha : json.simpleLetterEqualFold "age" key = false).
  { destruct (json.simpleLetterEqualFold "age" key) eqn:E; [|reflexivity].
    apply simpleLetterEqualFold_length in E. rewrite <- E in Hlen. discriminate. }
  unfold PetHandler_Create. simpl Body. unfold Decode.Pet in *.
  rewrite fold_left_app. simpl fold_left.
  destruct (fold_left Decode.Pet_member ms _) as [d saved]. simpl in Hd. subst saved.
  unfold Decode.Pet_member. rewrite Hn, Ha, Hk. simpl json.store_int. cbv iota beta.
  rewrite Hv.
  set (d' := mkPetCreateRequest (Pet_Name d) (Pet_Age d) None).
  destruct (violations_missing d') as [_ Howner].
  specialize (Howner eq_refl).
  unfold validator.New, Struct.
  destruct (validator.violations (OfPet d')) as [|fe errs] eqn:E; [destruct Howner|].
  exists (fe :: errs). repeat split. exact Howner.
Qed.

End Pet_body.

(** ** Sample runs of the further properties *)

(** A request without the parameter: the empty string is no integer. *)
Lemma Read_rejects_unparsable_id_witness :
  Read_of Serializer.Marshal Examples.strip Pet (Examples.handler Examples.store)
    (mkRequest [] (Malformed (SyntaxError "EOF")))
  = ([Log ErrorLevel "error getting id from url parameter"
        [zap_String "handler" "PetHandler"; zap_String "method" "Read";
         zap_String "id" ""; zap_Error (NumError "Atoi" "")];
      Respond 400 (r_string "id must be an integer greater zero")], Some tt).
Proof.
  exact (Read_rejects_unparsable_id Serializer.Marshal Examples.strip Pet
           (Examples.handler Examples.store)
           (mkRequest [] (Malformed (SyntaxError "EOF")))
           (NumError "Atoi" "") eq_refl).
Defined.

(** The user 3 is read with its pets. *)
Lemma Read_queries_parsed_id_witness :
  client_calls (trace (Read_of Serializer.Marshal Examples.strip User
                         (Examples.user_handler Examples.store) (Examples.get "3")))
  = [Call_Only (mkQuery User 3 ["pets"])].
Proof.
  exact (Read_queries_parsed_id Serializer.Marshal Examples.strip User
           (Examples.user_handler Examples.store) (Examples.get "3") 3 eq_refl).
Defined.

(** Two groups answer to the identifier 2. *)
Lemma Read_failed_query_witness :
  Read_of Serializer.Marshal Examples.strip Group
    (Examples.group_handler (Examples.store_query_fails (NotSingularError "group")))
    (Examples.get "2")
  = ([Call_Only (mkQuery Group 2 []);
      Log ErrorLevel "group not singular"
        [zap_String "handler" "GroupHandler"; zap_String "method" "Read";
         zap_Int "id" 2; zap_Error (NotSingularError "group")];
      Respond 400 (r_string "group not singular")], Some tt).
Proof.
  exact (Read_failed_query Serializer.Marshal Examples.strip Group
           (Examples.group_handler (Examples.store_query_fails (NotSingularError "group")))
           (Examples.get "2") 2 None (NotSingularError "group") eq_refl eq_refl).
Defined.

(** The pet 1 is read. *)
Lemma Read_found_witness :
  Read_of Serializer.Marshal Examples.strip Pet (Examples.handler Examples.store)
    (Examples.get "1")
  = ([Call_Only (mkQuery Pet 1 []);
      Log InfoLevel "pet rendered"
        [zap_String "handler" "PetHandler"; zap_String "method" "Read"; zap_Int "id" 1];
      Respond 200 (r_data (Serializer.serialize ["pet"] Examples.kuro))], Some tt).
Proof.
  exact (Read_found Serializer.Marshal Examples.strip Pet (Examples.handler Examples.store)
           (Examples.get "1") 1 (Some Examples.kuro) eq_refl eq_refl).
Defined.

(** A user is sent as an array. *)
Lemma Create_rejects_undecodable_witness :
  Create_of Serializer.Marshal Examples.strip User (Examples.user_handler Examples.store)
    (Examples.post (json.Array [json.Str "Elk"]))
  = ([Log ErrorLevel "error decoding json"
        [zap_String "handler" "UserHandler"; zap_String "method" "Create";
         zap_Error (UnmarshalTypeError "array")];
      Respond 400 (r_string "invalid json string")], Some tt).
Proof.
  exact (Create_rejects_undecodable Serializer.Marshal Examples.strip User
           (Examples.user_handler Examples.store)
           (Examples.post (json.Array [json.Str "Elk"]))
           (OfUser (mkUserCreateRequest None None None))
           (UnmarshalTypeError "array") eq_refl).
Defined.

(** The pet of the post reaches the client: it decoded and is valid. *)
Lemma Create_calls_client_only_when_valid_witness :
  exists p,
    Decode_of Pet (WellFormed Examples.kuro_body) = (p, None)
    /\ Struct validator.New p = None.
Proof.
  apply (Create_calls_client_only_when_valid Serializer.Marshal Examples.strip Pet
           (Examples.handler Examples.store) (Examples.post Examples.kuro_body)).
  vm_compute. discriminate.
Defined.

(** A user is written and the connection fails on the reload. *)
Lemma Create_panics_on_failed_reload_witness :
  Create_of Serializer.Marshal Examples.strip User
    (Examples.user_handler (Examples.store_query_fails (OtherError "bad connection")))
    (Examples.post (json.Object [("name", json.Str "Elk")]))
  = ([Call_Save (mkBuilder User [SetName "Elk"]); Call_Only (mkQuery User 1 [])], None).
Proof.
  exact (Create_panics_on_failed_reload Serializer.Marshal Examples.strip User
           (Examples.user_handler (Examples.store_query_fails (OtherError "bad connection")))
           (Examples.post (json.Object [("name", json.Str "Elk")]))
           (OfUser (mkUserCreateRequest (Some "Elk") None None))
           Examples.kuro (OtherError "bad connection") eq_refl eq_refl eq_refl eq_refl).
Defined.

(** A group is created from the empty object. *)
Lemma Create_renders_reloaded_witness :
  Create_of Serializer.Marshal Examples.strip Group (Examples.group_handler Examples.store)
    (Examples.post (json.Object []))
  = ([Call_Save (mkBuilder Group []); Call_Only (mkQuery Group 1 []);
      Log InfoLevel "group rendered"
        [zap_String "handler" "GroupHandler"; zap_String "method" "Create"; zap_Int "id" 1];
      Respond 200 (r_data (Serializer.serialize ["group"] Examples.kuro))], Some tt).
Proof.
  exact (Create_renders_reloaded Serializer.Marshal Examples.strip Group
           (Examples.group_handler Examples.store) (Examples.post (json.Object []))
           (OfGroup mkGroupCreateRequest) Examples.kuro Examples.kuro
           eq_refl eq_refl eq_refl eq_refl).
Defined.


(** The pet of the post with a member that takes the owner back. *)
Lemma Create_null_owner_is_missing_witness :
  exists errs,
    responses (trace (PetHandler_Create Serializer.Marshal Examples.strip
                        (Examples.handler Examples.store)
                        (mkRequest []
                           (WellFormed (json.Object
                              [("name", json.Str "Kuro");
                               ("age", json.Number (json.Integer 3));
                               ("owner", json.Number (json.Integer 1));
                               ("OWNER", json.Null)])))))
    = [(400, r_error (ValidationErrors errs))]
    /\ In "Owner" (error_fields (r_error (ValidationErrors errs)))
    /\ client_calls (trace (PetHandler_Create Serializer.Marshal Examples.strip
                        (Examples.handler Examples.store)
                        (mkRequest []
                           (WellFormed (json.Object
                              [("name", json.Str "Kuro");
                               ("age", json.Number (json.Integer 3));
                               ("owner", json.Number (json.Integer 1));
                               ("OWNER", json.Null)]))))) = [].
Proof.
  exact (Create_null_owner_is_missing Serializer.Marshal Examples.strip
           (Examples.handler Examples.store) []
           [("name", json.Str "Kuro"); ("age", json.Number (json.Integer 3));
            ("owner", json.Number (json.Integer 1))]
           "OWNER" eq_refl eq_refl eq_refl).
Defined.

(** An age sent as a string, and sent again as a number: still an error. *)
Lemma Create_rejects_ill_typed_member_witness :
  responses (trace (PetHandler_Create Serializer.Marshal Examples.strip
                      (Examples.handler Examples.store)
                      (mkRequest []
                         (WellFormed (json.Object
                            [("age", json.Str "3");
                             ("age", json.Number (json.Integer 3));
                             ("owner", json.Number (json.Integer 1))])))))
  = [(400, r_string "invalid json string")].
Proof.
  exact (proj1 (proj2 (Create_rejects_ill_typed_member Serializer.Marshal Examples.strip
                         (Examples.handler Examples.store) []
                         [("age", json.Str "3"); ("age", json.Number (json.Integer 3));
                          ("owner", json.Number (json.Integer 1))])
                  eq_refl)).
Defined.
